(** * Scriberr web client: session gate, credential forms, LLM settings
      and YouTube import dialog

    A shallow embedding of the decision logic of the components
    - [ProtectedRoute] (session gate),
    - [Login] and [Register] (credential forms),
    - [LLMSettings] (LLM configuration form),
    - [YouTubeDownloadDialog] (media import dialog),
    together with the properties stated about them.

    JavaScript strings are sequences of UTF-16 code units; a code unit is
    a number [N].  React state is a record per component; an event
    handler is a function from the component state and the outcome of the
    (single) [fetch] it may perform to the new state and the list of
    effects it produced, in program order. *)

From stdpp Require Import gmap strings list fin_maps.
From Stdlib Require Import NArith Ascii String.

Local Open Scope string_scope.
Local Open Scope list_scope.
Local Open Scope N_scope.

(** ** JavaScript strings *)

Module Js.

(** A JavaScript string: its UTF-16 code units. *)
Abbreviation jsstring := (list N).

(** An ASCII literal of the source as code units. *)
Fixpoint str (s : string) : jsstring :=
  match s with
  | EmptyString => []
  | String a s' => N_of_ascii a :: str s'
  end.

(** The code unit of the double quote. *)
Definition dquote : N := 34.

Fixpoint jsstring_eqb (a b : jsstring) : bool :=
  match a, b with
  | [], [] => true
  | x :: a', y :: b' => (x =? y) && jsstring_eqb a' b'
  | _, _ => false
  end.

(** ECMAScript WhiteSpace and LineTerminator code points: what [\s]
    matches and what [String.prototype.trim] strips. *)
Definition is_whitespace (c : N) : bool :=
  ((9 <=? c) && (c <=? 13))       (* TAB LF VT FF CR *)
  || (c =? 32)                    (* SPACE *)
  || (c =? 160)                   (* NO-BREAK SPACE *)
  || (c =? 5760)                  (* U+1680 *)
  || ((8192 <=? c) && (c <=? 8202)) (* U+2000 .. U+200A *)
  || (c =? 8232) || (c =? 8233)   (* LINE / PARAGRAPH SEPARATOR *)
  || (c =? 8239) || (c =? 8287)   (* U+202F, U+205F *)
  || (c =? 12288)                 (* U+3000 *)
  || (c =? 65279).                (* U+FEFF *)

(** ECMAScript LineTerminator: what [.] refuses. *)
Definition is_line_terminator (c : N) : bool :=
  (c =? 10) || (c =? 13) || (c =? 8232) || (c =? 8233).

Fixpoint drop_ws (s : jsstring) : jsstring :=
  match s with
  | c :: s' => if is_whitespace c then drop_ws s' else s
  | [] => []
  end.

(** [String.prototype.trim]. *)
Definition trim (s : jsstring) : jsstring :=
  rev (drop_ws (rev (drop_ws s))).

(** [s.startsWith(p)], used to define [includes]. *)
Fixpoint starts_with (p s : jsstring) : bool :=
  match p, s with
  | [], _ => true
  | x :: p', y :: s' => (x =? y) && starts_with p' s'
  | _ :: _, [] => false
  end.

(** [s.includes(sub)]: [sub] occurs in [s] at some position. *)
Fixpoint includes (s sub : jsstring) : bool :=
  starts_with sub s
  || match s with
     | [] => false
     | _ :: s' => includes s' sub
     end.

(** JavaScript values that reach the modelled code. *)
Inductive value :=
| VUndefined
| VNull
| VBool (b : bool)
| VNum (n : Z)           (* an integral number *)
| VStr (s : jsstring).

#[global] Instance value_eq_dec : EqDecision value.
Proof. solve_decision. Defined.

(** ToBoolean. *)
Definition truthy (v : value) : bool :=
  match v with
  | VUndefined | VNull => false
  | VBool b => b
  | VNum n => negb (n =? 0)%Z
  | VStr s => negb (jsstring_eqb s [])
  end.

(** [a === b]. *)
Definition strict_eq (a b : value) : bool := bool_decide (a = b).

(** [a || b]. *)
Definition or_else (a b : value) : value :=
  if truthy a then a else b.

(** Property read [o.k] on an object: [undefined] when absent. *)
Definition get (o : gmap string value) (k : string) : value :=
  default VUndefined (o !! k).

(** The object that the text [JSON.stringify(o)] denotes: properties whose
    value is [undefined] are left out. *)
Definition JSON_stringify (o : gmap string value) : gmap string value :=
  filter (fun kv => kv.2 <> VUndefined) o.

(** Spreading [c && obj] into an object literal: nothing when [c] is
    false. *)
Definition spread_if (c : bool) (obj : gmap string value) : gmap string value :=
  if c then obj else ∅.

End Js.

Export Js.

(** ** Regular expressions

    The fragment of ECMAScript patterns the source uses (no flags):
    literals, [.], classes with ranges and the escapes [\d] and [\s],
    sequence, alternation, greedy [?] on a group, greedy counted repetition
    of a one-character atom ([*], [+], [{n}]) and one capturing group.
    The group under [?] in the source cannot match the empty string, so the
    rule of ECMAScript that discards an empty iteration never applies. *)

Module Regex.

Inductive class_item :=
| Chr (c : N)
| Range (lo hi : N)
| Digit            (* \d *)
| Space.           (* \s *)

Inductive atom :=
| Lit (c : N)
| Dot
| Class (negated : bool) (items : list class_item).

Inductive regex :=
| Eps
| Atom (a : atom)
| Seq (r1 r2 : regex)
| Alt (r1 r2 : regex)
| Opt (r : regex)
| Rep (a : atom) (min : nat) (max : option nat)
| Group (r : regex).

Definition item_matches (i : class_item) (c : N) : bool :=
  match i with
  | Chr x => c =? x
  | Range lo hi => (lo <=? c) && (c <=? hi)
  | Digit => (48 <=? c) && (c <=? 57)
  | Space => is_whitespace c
  end.

Definition atom_matches (a : atom) (c : N) : bool :=
  match a with
  | Lit x => c =? x
  | Dot => negb (is_line_terminator c)
  | Class negated items => xorb negated (existsb (fun i => item_matches i c) items)
  end.

Definition may_take (max : option nat) : bool :=
  match max with
  | Some 0%nat => false
  | _ => true
  end.

Definition dec_max (max : option nat) : option nat :=
  match max with
  | Some n => Some (Nat.pred n)
  | None => None
  end.

(** The part of [s] read so far when [rest] remains. *)
Definition consumed (s rest : jsstring) : jsstring :=
  take (List.length s - List.length rest)%nat s.

Section Matcher.
(** The result of a successful continuation. *)
Context {R : Type}.

(** Greedy repetition of a one-character atom: take one more character
    first, fall back to the continuation once [min] is reached. *)
Fixpoint rep (a : atom) (min : nat) (max : option nat) (s : jsstring)
         (k : jsstring -> option R) : option R :=
  let stop := if Nat.eqb min 0 then k s else None in
  match s with
  | c :: s' =>
      if atom_matches a c && may_take max then
        match rep a (Nat.pred min) (dec_max max) s' k with
        | Some r => Some r
        | None => stop
        end
      else stop
  | [] => stop
  end.

(** Backtracking matcher in continuation-passing style: [s] is the
    input that remains, [cap] the current value of capture 1, and
    alternatives are tried left to right. *)
Fixpoint run (r : regex) (s : jsstring) (cap : option jsstring)
         (k : jsstring -> option jsstring -> option R) : option R :=
  match r with
  | Eps => k s cap
  | Atom a =>
      match s with
      | c :: s' => if atom_matches a c then k s' cap else None
      | [] => None
      end
  | Seq r1 r2 => run r1 s cap (fun s1 cap1 => run r2 s1 cap1 k)
  | Alt r1 r2 =>
      match run r1 s cap k with
      | Some x => Some x
      | None => run r2 s cap k
      end
  | Opt r1 =>
      match run r1 s cap k with
      | Some x => Some x
      | None => k s cap
      end
  | Rep a min max => rep a min max s (fun s1 => k s1 cap)
  | Group r1 =>
      run r1 s cap
          (fun s1 _ => k s1 (Some (consumed s s1)))
  end.
End Matcher.

(** Literal text as a pattern. *)
Fixpoint lit (s : jsstring) : regex :=
  match s with
  | [] => Eps
  | c :: s' => Seq (Atom (Lit c)) (lit s')
  end.

(** The match array of [RegExp.prototype.exec]: element 0 and capture 1. *)
Record match_result := { whole : jsstring; group1 : option jsstring }.

Definition match_here (r : regex) (s : jsstring) : option match_result :=
  run r s None
      (fun rest cap =>
         Some {| whole := consumed s rest; group1 := cap |}).

(** [r.exec(s)] for a pattern without the g or y flag: the first start
    position, from the left, at which the pattern matches. *)
Fixpoint exec (r : regex) (s : jsstring) : option match_result :=
  match match_here r s with
  | Some m => Some m
  | None =>
      match s with
      | [] => None
      | _ :: s' => exec r s'
      end
  end.

(** [r.test(s)]. *)
Definition test (r : regex) (s : jsstring) : bool :=
  match exec r s with
  | Some _ => true
  | None => false
  end.

(** [s.match(r)] for a non-global pattern is [r.exec(s)]. *)
Definition string_match (s : jsstring) (r : regex) : option match_result :=
  exec r s.

End Regex.

Export Regex.

(** ** Requests, responses and effects of an event handler *)

Module Net.

Record request := {
  req_url : string;
  req_method : string;
  req_headers : gmap string jsstring;
  req_body : gmap string value
}.

(** How the one [fetch] of a handler ends.  [Rejected]: the promise
    rejects (transport failure).  [Responded status json]: a response
    arrived; [json] is the object [response.json()] resolves to, [None]
    when it rejects.  In the login, registration and media import handlers,
    which read a property of the body first, [None] also stands for a body
    that resolves to [null], since that read throws; in the LLM handlers
    [None] is a rejecting [response.json()] only.  A body that is another
    primitive reads like the empty object. *)
Inductive fetch_outcome :=
| Rejected
| Responded (status : N) (json : option (gmap string value)).

(** [response.ok]: the status is in the range 200 to 299. *)
Definition ok (status : N) : bool := (200 <=? status) && (status <=? 299).

Inductive effect :=
| PreventDefault
| Fetch (r : request)
| OnLogin (token : value)
| OnRegister (token : value)
| ConsoleError (label : string)
| SetTimeout (delay : N).

Definition is_fetch (e : effect) : option request :=
  match e with
  | Fetch r => Some r
  | _ => None
  end.

(** The network requests among the effects of a handler. *)
Definition requests (es : list effect) : list request := omap is_fetch es.

Definition json_headers : gmap string jsstring :=
  {[ "Content-Type" := str "application/json" ]}.

End Net.

Export Net.

(** ** ProtectedRoute: the session gate
    (web/frontend/src/components/ProtectedRoute.tsx, first component) *)

Module Gate.

(** The fields of [useAuth()] that [ProtectedRoute] reads. *)
Record auth := {
  isAuthenticated : bool;
  requiresRegistration : bool;
  isInitialized : bool
}.

(** What [ProtectedRoute] returns. *)
Inductive screen :=
| Loading          (* the spinner with the text Loading... *)
| RegisterScreen   (* <Register onRegister={login} /> *)
| LoginScreen      (* <Login onLogin={login} /> *)
| Content.         (* <>{children}</> *)

Definition ProtectedRoute (a : auth) : screen :=
  if negb (isInitialized a) then Loading
  else if requiresRegistration a then RegisterScreen
  else if negb (isAuthenticated a) then LoginScreen
  else Content.

Definition all_screens : list screen :=
  [Loading; RegisterScreen; LoginScreen; Content].

#[global] Instance screen_eq_dec : EqDecision screen.
Proof. solve_decision. Defined.

End Gate.

(** ** The session behind [useAuth()] *)

Module Session.
Import Gate.

(** Modelled from the spec: the session record of the data model; the
    [AuthContext] provider that holds it is not among the sources.  The
    optional token and the two flags. *)
Record session := {
  token : option jsstring;
  initialized : bool;
  registrationRequired : bool
}.

(** Modelled from the spec: the outcome of the one-shot initialization
    check of [AuthContext], which asks the backend whether an account
    exists: an answer, or a network failure. *)
Inductive init_outcome :=
| InitAnswered (requires_registration : bool)
| InitFailed.

(** Modelled from the spec: [isAuthenticated] is derived, the token is
    present and non-empty. *)
Definition authenticated (s : session) : bool :=
  match token s with
  | Some t => negb (jsstring_eqb t [])
  | None => false
  end.

(** Modelled from the spec: the session at application start of
    [AuthContext]: uninitialized, and no token since nothing is persisted. *)
Definition at_start : session :=
  {| token := None; initialized := false; registrationRequired := false |}.

(** Modelled from the spec: the initialization check of [AuthContext]
    completing.  An answer resolves [requiresRegistration]; a failure
    assumes that registration is not required.  Either way the session is
    initialized afterwards. *)
Definition initialize (s : session) (o : init_outcome) : session :=
  match o with
  | InitAnswered r =>
      {| token := token s; initialized := true; registrationRequired := r |}
  | InitFailed =>
      {| token := token s; initialized := true; registrationRequired := false |}
  end.

(** Modelled from the spec: what [useAuth()] of [AuthContext] hands to
    [ProtectedRoute]. *)
Definition useAuth (s : session) : auth :=
  {| isAuthenticated := authenticated s;
     requiresRegistration := registrationRequired s;
     isInitialized := initialized s |}.

End Session.

(** ** Register: the registration form
    (the component that follows the build configuration in
    web/landing/vite.config.ts) *)

Module Register.

Record PasswordStrength := {
  hasMinLength : bool;
  hasUppercase : bool;
  hasLowercase : bool;
  hasNumber : bool;
  hasSpecialChar : bool
}.

(** [/[A-Z]/] *)
Definition re_upper : regex := Atom (Class false [Range 65 90]).
(** [/[a-z]/] *)
Definition re_lower : regex := Atom (Class false [Range 97 122]).
(** [/\d/] *)
Definition re_digit : regex := Atom (Class false [Digit]).

(** The characters of the class in [hasSpecialChar], in source order. *)
Definition special_chars : jsstring :=
  str "!@#$%^&*(),.?" ++ [dquote] ++ str ":{}|<>".

(** The pattern of [hasSpecialChar]: one class of these characters. *)
Definition re_special : regex := Atom (Class false (map Chr special_chars)).

Definition checkPasswordStrength (pwd : jsstring) : PasswordStrength :=
  {| hasMinLength := (8 <=? N.of_nat (List.length pwd));
     hasUppercase := test re_upper pwd;
     hasLowercase := test re_lower pwd;
     hasNumber := test re_digit pwd;
     hasSpecialChar := test re_special pwd |}.

(** [Object.values] of the report: the property values in creation
    order. *)
Definition Object_values (p : PasswordStrength) : list bool :=
  [hasMinLength p; hasUppercase p; hasLowercase p; hasNumber p;
   hasSpecialChar p].

(** [xs.every(Boolean)] *)
Definition every_Boolean (xs : list bool) : bool := forallb id xs.

(** The state of the component, one field per [useState]. *)
Record state := {
  username : jsstring;
  password : jsstring;
  confirmPassword : jsstring;
  loading : bool;
  error : value;
  showPassword : bool;
  showConfirmPassword : bool
}.

Definition initial : state :=
  {| username := []; password := []; confirmPassword := [];
     loading := false; error := VStr [];
     showPassword := false; showConfirmPassword := false |}.

Definition setUsername (u : jsstring) (st : state) : state :=
  {| username := u; password := password st;
     confirmPassword := confirmPassword st; loading := loading st;
     error := error st;
     showPassword := showPassword st;
     showConfirmPassword := showConfirmPassword st |}.

Definition setPassword (p : jsstring) (st : state) : state :=
  {| username := username st; password := p;
     confirmPassword := confirmPassword st; loading := loading st;
     error := error st;
     showPassword := showPassword st;
     showConfirmPassword := showConfirmPassword st |}.

Definition setConfirmPassword (c : jsstring) (st : state) : state :=
  {| username := username st; password := password st;
     confirmPassword := c; loading := loading st;
     error := error st;
     showPassword := showPassword st;
     showConfirmPassword := showConfirmPassword st |}.

Definition setError (v : value) (st : state) : state :=
  {| username := username st; password := password st;
     confirmPassword := confirmPassword st; loading := loading st;
     error := v;
     showPassword := showPassword st;
     showConfirmPassword := showConfirmPassword st |}.

Definition setLoading (b : bool) (st : state) : state :=
  {| username := username st; password := password st;
     confirmPassword := confirmPassword st; loading := b;
     error := error st;
     showPassword := showPassword st;
     showConfirmPassword := showConfirmPassword st |}.

(** The values derived on each render. *)
Definition passwordStrength (st : state) : PasswordStrength :=
  checkPasswordStrength (password st).

Definition isPasswordValid (st : state) : bool :=
  every_Boolean (Object_values (passwordStrength st)).

Definition passwordsMatch (st : state) : bool :=
  jsstring_eqb (password st) (confirmPassword st)
  && (0 <? N.of_nat (List.length (confirmPassword st))).

(** The attributes of the username [<Input>]. *)
Record input_attrs := {
  required : bool;
  minLength : option N;
  maxLength : option N
}.

Definition username_input : input_attrs :=
  {| required := true; minLength := Some 3; maxLength := Some 50 |}.

(** [disabled] of the submit button. *)
Definition submit_disabled (st : state) : bool :=
  loading st || jsstring_eqb (trim (username st)) []
  || negb (isPasswordValid st) || negb (passwordsMatch st).

(** The request of [handleSubmit]. *)
Definition register_request (st : state) : request :=
  {| req_url := "/api/v1/auth/register";
     req_method := "POST";
     req_headers := json_headers;
     req_body :=
       JSON_stringify
         (<["confirmPassword" := VStr (confirmPassword st)]>
            (<["password" := VStr (password st)]>
               {[ "username" := VStr (username st) ]})) |}.

(** The [try]/[catch] of [handleSubmit], after the request was sent. *)
Definition on_outcome (o : fetch_outcome) (st : state) : state * list effect :=
  match o with
  | Responded status (Some data) =>
      if ok status then (st, [OnRegister (get data "token")])
      else (setError (or_else (get data "error")
                              (VStr (str "Registration failed"))) st, [])
  | Responded _ None | Rejected =>
      (setError (VStr (str "Network error. Please try again.")) st,
       [ConsoleError "Registration error:"])
  end.

Definition handleSubmit (st : state) (o : fetch_outcome) : state * list effect :=
  let st1 := setError (VStr []) st in
  if negb (isPasswordValid st) then
    (setError (VStr (str "Please ensure your password meets all requirements")) st1,
     [PreventDefault])
  else if negb (passwordsMatch st) then
    (setError (VStr (str "Passwords do not match")) st1, [PreventDefault])
  else
    let st2 := setLoading true st1 in
    let '(st3, es) := on_outcome o st2 in
    (setLoading false st3, PreventDefault :: Fetch (register_request st) :: es).

End Register.

(** ** Login: the login form
    (second component of web/frontend/src/components/ProtectedRoute.tsx) *)

Module Login.

Record state := {
  username : jsstring;
  password : jsstring;
  loading : bool;
  error : value
}.

Definition initial : state :=
  {| username := []; password := []; loading := false; error := VStr [] |}.

Definition setError (v : value) (st : state) : state :=
  {| username := username st; password := password st;
     loading := loading st; error := v |}.

Definition setLoading (b : bool) (st : state) : state :=
  {| username := username st; password := password st;
     loading := b; error := error st |}.

Definition login_failed : jsstring := str "Login failed".
Definition network_error : jsstring := str "Network error. Please try again.".

Definition login_request (st : state) : request :=
  {| req_url := "/api/v1/auth/login";
     req_method := "POST";
     req_headers := json_headers;
     req_body :=
       JSON_stringify
         (<["password" := VStr (password st)]>
            {[ "username" := VStr (username st) ]}) |}.

(** The [try]/[catch] of [handleSubmit], after the request was sent. *)
Definition on_outcome (o : fetch_outcome) (st : state) : state * list effect :=
  match o with
  | Responded status (Some data) =>
      if ok status then (st, [OnLogin (get data "token")])
      else (setError (or_else (get data "error") (VStr login_failed)) st, [])
  | Responded _ None | Rejected =>
      (setError (VStr network_error) st, [ConsoleError "Login error:"])
  end.

Definition handleSubmit (st : state) (o : fetch_outcome) : state * list effect :=
  let st1 := setLoading true (setError (VStr []) st) in
  let '(st2, es) := on_outcome o st1 in
  (setLoading false st2, PreventDefault :: Fetch (login_request st) :: es).

(** [disabled] of the submit button. *)
Definition submit_disabled (st : state) : bool :=
  loading st || jsstring_eqb (trim (username st)) []
  || jsstring_eqb (trim (password st)) [].

End Login.

(** ** YouTubeDownloadDialog: the media import dialog
    (third component of web/frontend/src/components/ProtectedRoute.tsx) *)

Module YouTube.

Section Dialog.
(** [getAuthHeaders()] of [useAuth()]. *)
Variable getAuthHeaders : gmap string jsstring.

Record state := {
  url : jsstring;
  title : jsstring;
  isDownloading : bool;
  error : option value;      (* [None] is [null] *)
  success : bool
}.

Definition initial : state :=
  {| url := []; title := []; isDownloading := false; error := None;
     success := false |}.

Definition setUrl (u : jsstring) (st : state) : state :=
  {| url := u; title := title st; isDownloading := isDownloading st;
     error := error st; success := success st |}.

Definition setTitle (t : jsstring) (st : state) : state :=
  {| url := url st; title := t; isDownloading := isDownloading st;
     error := error st; success := success st |}.

Definition setError (v : option value) (st : state) : state :=
  {| url := url st; title := title st; isDownloading := isDownloading st;
     error := v; success := success st |}.

Definition setIsDownloading (b : bool) (st : state) : state :=
  {| url := url st; title := title st; isDownloading := b;
     error := error st; success := success st |}.

Definition setSuccess (b : bool) (st : state) : state :=
  {| url := url st; title := title st; isDownloading := isDownloading st;
     error := error st; success := b |}.

Definition validateYouTubeUrl (u : jsstring) : bool :=
  includes u (str "youtube.com") || includes u (str "youtu.be").

(** The pattern of [getYouTubeVideoId], piece by piece. *)

(** [[^\/]+\/.+\/] *)
Definition re_path : regex :=
  Seq (Rep (Class true [Chr 47]) 1 None)
      (Seq (Atom (Lit 47)) (Seq (Rep Dot 1 None) (Atom (Lit 47)))).

(** [(?:v|e(?:mbed)?)\/] *)
Definition re_embed : regex :=
  Seq (Alt (lit (str "v")) (Seq (lit (str "e")) (Opt (lit (str "mbed")))))
      (Atom (Lit 47)).

(** [.*[?&]v=] *)
Definition re_query : regex :=
  Seq (Rep Dot 0 None)
      (Seq (Atom (Class false [Chr 63; Chr 38])) (lit (str "v="))).

(** The eleven characters of the identifier: none of double quote,
    ampersand, question mark, slash or white space. *)
Definition re_id : regex :=
  Rep (Class true [Chr dquote; Chr 38; Chr 63; Chr 47; Space]) 11 (Some 11%nat).

Definition video_id_regex : regex :=
  Seq (Alt (Seq (lit (str "youtube.com/"))
                (Alt re_path (Alt re_embed re_query)))
           (lit (str "youtu.be/")))
      (Group re_id).

Definition getYouTubeVideoId (u : jsstring) : option jsstring :=
  match string_match u video_id_regex with
  | Some m => group1 m
  | None => None
  end.

Definition download_request (st : state) : request :=
  {| req_url := "/api/v1/transcription/youtube";
     req_method := "POST";
     req_headers := getAuthHeaders ∪ json_headers;
     req_body :=
       JSON_stringify
         (<["title" := or_else (VStr (trim (title st))) VUndefined]>
            {[ "url" := VStr (trim (url st)) ]}) |}.

(** The [try]/[catch] of [handleSubmit], after the request was sent. *)
Definition on_outcome (o : fetch_outcome) (st : state) : state * list effect :=
  match o with
  | Rejected =>
      (setError (Some (VStr (str "Network error occurred. Please try again."))) st, [])
  | Responded status json =>
      if ok status then (setSuccess true st, [SetTimeout 2000])
      else
        match json with
        | Some errorData =>
            (setError (Some (or_else (get errorData "error")
                                     (VStr (str "Failed to download YouTube audio"))))
                      st, [])
        | None =>
            (setError (Some (VStr (str "Network error occurred. Please try again."))) st, [])
        end
  end.

Definition handleSubmit (st : state) (o : fetch_outcome) : state * list effect :=
  if jsstring_eqb (trim (url st)) [] then
    (setError (Some (VStr (str "Please enter a YouTube URL"))) st, [PreventDefault])
  else if negb (validateYouTubeUrl (url st)) then
    (setError (Some (VStr (str "Please enter a valid YouTube URL"))) st, [PreventDefault])
  else
    let st1 := setError None (setIsDownloading true st) in
    let '(st2, es) := on_outcome o st1 in
    (setIsDownloading false st2,
     PreventDefault :: Fetch (download_request st) :: es).

(** [disabled] of the submit button. *)
Definition submit_disabled (st : state) : bool :=
  isDownloading st || jsstring_eqb (trim (url st)) [].
End Dialog.

End YouTube.

(** ** LLMSettings: the LLM configuration form
    (web/frontend/src/components/LLMSettings.tsx) *)

Module LLMSettings.

Section Form.
(** [getAuthHeaders()] of [useAuth()]. *)
Variable getAuthHeaders : gmap string jsstring.

Inductive message_type := Success | Error.

(** The state of the component.  [config] is the object last stored by
    [setConfig]: the initial literal, a server answer, or one of them
    with [provider] replaced by a radio button. *)
Record state := {
  config : gmap string value;
  baseUrl : jsstring;
  apiKey : jsstring;
  loading : bool;
  saving : bool;
  message : option (message_type * value)
}.

Definition initial : state :=
  {| config := <["is_active" := VBool false]> {[ "provider" := VStr (str "ollama") ]};
     baseUrl := []; apiKey := []; loading := true; saving := false;
     message := None |}.

Definition setConfig (c : gmap string value) (st : state) : state :=
  {| config := c; baseUrl := baseUrl st; apiKey := apiKey st;
     loading := loading st; saving := saving st; message := message st |}.

Definition setBaseUrl (u : jsstring) (st : state) : state :=
  {| config := config st; baseUrl := u; apiKey := apiKey st;
     loading := loading st; saving := saving st; message := message st |}.

Definition setApiKey (k : jsstring) (st : state) : state :=
  {| config := config st; baseUrl := baseUrl st; apiKey := k;
     loading := loading st; saving := saving st; message := message st |}.

Definition setSaving (b : bool) (st : state) : state :=
  {| config := config st; baseUrl := baseUrl st; apiKey := apiKey st;
     loading := loading st; saving := b; message := message st |}.

Definition setMessage (m : option (message_type * value)) (st : state) : state :=
  {| config := config st; baseUrl := baseUrl st; apiKey := apiKey st;
     loading := loading st; saving := saving st; message := m |}.

(** The radio buttons: [setConfig({ ...config, provider: value })]. *)
Definition select_provider (p : jsstring) (st : state) : state :=
  setConfig (<["provider" := VStr p]> (config st)) st.

Definition provider (st : state) : value := get (config st) "provider".

Definition is_ollama (st : state) : bool :=
  strict_eq (provider st) (VStr (str "ollama")).

Definition is_openai (st : state) : bool :=
  strict_eq (provider st) (VStr (str "openai")).

(** The object literal [payload] of [handleSave]; a later property or
    spread overrides an earlier one. *)
Definition payload (st : state) : gmap string value :=
  spread_if (is_openai st) {[ "api_key" := VStr (apiKey st) ]}
  ∪ (spread_if (is_ollama st) {[ "base_url" := VStr (baseUrl st) ]}
  ∪ <["is_active" := VBool true]> {[ "provider" := provider st ]}).

Definition save_request (st : state) : request :=
  {| req_url := "/api/v1/llm/config";
     req_method := "POST";
     req_headers := json_headers ∪ getAuthHeaders;
     req_body := JSON_stringify (payload st) |}.

(** The [try]/[catch] of [handleSave], after the request was sent. *)
Definition on_outcome (st0 : state) (o : fetch_outcome) (st : state)
  : state * list effect :=
  match o with
  | Responded status (Some data) =>
      if ok status then
        let st1 :=
          setMessage
            (Some (Success, VStr (str "LLM configuration saved successfully!")))
            (setConfig data st) in
        (if is_openai st0 then setApiKey [] st1 else st1, [])
      else
        (setMessage
           (Some (Error, or_else (get data "error")
                                 (VStr (str "Failed to save configuration"))))
           st, [])
  | Responded _ None | Rejected =>
      (setMessage
         (Some (Error, VStr (str "Failed to save configuration. Please try again.")))
         st,
       [ConsoleError "Error saving LLM config:"])
  end.

Definition handleSave (st : state) (o : fetch_outcome) : state * list effect :=
  let st1 := setMessage None (setSaving true st) in
  let '(st2, es) := on_outcome st o st1 in
  (setSaving false st2, Fetch (save_request st) :: es).

(** [isFormValid()]; the hosted branch returns the value of [||]. *)
Definition isFormValid (st : state) : value :=
  if is_ollama st then VBool (negb (jsstring_eqb (trim (baseUrl st)) []))
  else if is_openai st then
    or_else (VBool (negb (jsstring_eqb (trim (apiKey st)) [])))
            (get (config st) "has_api_key")
  else VBool false.

(** [disabled] of the save button. *)
Definition save_disabled (st : state) : bool :=
  negb (truthy (isFormValid st)) || saving st.
End Form.

End LLMSettings.

(** ** LLMSettings: loading the stored configuration
    ([fetchConfig] of web/frontend/src/components/LLMSettings.tsx) *)

Module LLMLoad.
Import LLMSettings.

Section Load.
(** [getAuthHeaders()] of [useAuth()]. *)
Variable getAuthHeaders : gmap string jsstring.

Definition setLoading (b : bool) (st : state) : state :=
  {| config := config st; baseUrl := baseUrl st; apiKey := apiKey st;
     loading := b; saving := saving st; message := message st |}.

(** The request of [fetchConfig]: a GET without body. *)
Definition config_request : request :=
  {| req_url := "/api/v1/llm/config";
     req_method := "GET";
     req_headers := getAuthHeaders;
     req_body := ∅ |}.

(** The string that [setBaseUrl(data.base_url || "")] stores.  The state
    keeps [baseUrl] as a string, as the component declares it; [None] stands
    for a [base_url] that is truthy and no string, which the declared type
    of the answer excludes. *)
Definition loaded_base_url (data : gmap string value) : option jsstring :=
  match or_else (get data "base_url") (VStr []) with
  | VStr u => Some u
  | _ => None
  end.

(** [fetchConfig]: [None] only for an answer outside the declared type
    (see [loaded_base_url]).  In [Responded status None] the body could not
    be read ([response.json()] rejects); a body that is the JSON value
    [null] is outside the declared type as well and is not modelled. *)
Definition fetchConfig (st : state) (o : fetch_outcome)
  : option (state * list effect) :=
  match o with
  | Rejected =>
      Some (setLoading false st,
            [Fetch config_request; ConsoleError "Error fetching LLM config:"])
  | Responded status json =>
      if ok status then
        match json with
        | Some data =>
            match loaded_base_url data with
            | Some u =>
                Some (setLoading false (setBaseUrl u (setConfig data st)),
                      [Fetch config_request])
            | None => None
            end
        | None =>
            Some (setLoading false st,
                  [Fetch config_request;
                   ConsoleError "Error fetching LLM config:"])
        end
      else if negb (status =? 404) then
        Some (setLoading false st,
              [Fetch config_request; ConsoleError "Failed to fetch LLM config"])
      else Some (setLoading false st, [Fetch config_request])
  end.
End Load.

End LLMLoad.

(** ** Inputs and messages the statements refer to *)

Module Samples.

(** The message of a local rejection of the registration form: it names
    the first unmet condition. *)
Definition local_message (st : Register.state) : jsstring :=
  if Register.isPasswordValid st then str "Passwords do not match"
  else str "Please ensure your password meets all requirements".

(** The registration form filled with the password abc, twice. *)
Definition abc_form : Register.state :=
  Register.setConfirmPassword (str "abc")
    (Register.setPassword (str "abc")
       (Register.setUsername (str "admin") Register.initial)).

(** The registration form with a username of two characters and a valid,
    confirmed password. *)
Definition short_username_form : Register.state :=
  Register.setConfirmPassword (str "Abcdef1!")
    (Register.setPassword (str "Abcdef1!")
       (Register.setUsername (str "ab") Register.initial)).

(** The body of a rejected login. *)
Definition invalid_credentials : gmap string value :=
  {[ "error" := VStr (str "Invalid credentials") ]}.

Definition short_link : jsstring := str "https://youtu.be/dQw4w9WgXcQ".
Definition watch_link : jsstring :=
  str "https://www.youtube.com/watch?v=dQw4w9WgXcQ&t=42".
Definition embed_link : jsstring :=
  str "https://www.youtube.com/embed/dQw4w9WgXcQ".
Definition foreign_link : jsstring := str "https://example.com/video".
Definition referrer_link : jsstring := str "https://example.com/?ref=youtu.be".

(** A code unit the video identifier may consist of: no double quote,
    ampersand, question mark, slash or white space. *)
Definition id_char (c : N) : Prop :=
  c <> 34 /\ c <> 38 /\ c <> 63 /\ c <> 47 /\ is_whitespace c = false.

(** The LLM form with openai selected, no key stored, and one space typed
    into the key field. *)
Definition blank_key_form : LLMSettings.state :=
  LLMSettings.setApiKey (str " ")
    (LLMSettings.select_provider (str "openai") LLMSettings.initial).

(** The LLM form with openai selected after the server reported a stored
    key. *)
Definition stored_key_form : LLMSettings.state :=
  LLMSettings.setConfig
    (<["has_api_key" := VBool true]>
       (<["provider" := VStr (str "openai")]>
          (LLMSettings.config LLMSettings.initial)))
    LLMSettings.initial.

(** Headers as [getAuthHeaders()] returns them for a signed-in user. *)
Definition bearer : gmap string jsstring :=
  {[ "Authorization" := str "Bearer token" ]}.

(** An answer of the server for a stored ollama configuration. *)
Definition ollama_answer : gmap string value :=
  <["base_url" := VStr (str "http://localhost:11434")]>
    (<["is_active" := VBool true]> {[ "provider" := VStr (str "ollama") ]}).

(** An answer of the server for a stored openai configuration. *)
Definition openai_answer : gmap string value :=
  <["has_api_key" := VBool true]>
    (<["is_active" := VBool true]> {[ "provider" := VStr (str "openai") ]}).

End Samples.

Export Samples.

(** * Properties *)

(** ** Strings and patterns *)

Section StringFacts.
Implicit Types s p sub : jsstring.

Lemma jsstring_eqb_eq s p : jsstring_eqb s p = true <-> s = p.
Proof.
  revert p; induction s as [|x s IH]; intros [|y p]; simpl; try easy.
  rewrite andb_true_iff, N.eqb_eq, IH.
  split; [intros [-> ->]; reflexivity | intros [= -> ->]; auto].
Qed.

Lemma jsstring_eqb_nil s : jsstring_eqb s [] = true <-> s = [].
Proof. apply jsstring_eqb_eq. Qed.

Lemma starts_with_spec p s :
  starts_with p s = true <-> exists post, s = p ++ post.
Proof.
  revert s; induction p as [|x p IH]; intros s; simpl.
  - split; [eauto | reflexivity].
  - destruct s as [|y s].
    + split; [discriminate | intros [post [=]]].
    + rewrite andb_true_iff, N.eqb_eq, IH. split.
      * intros [-> [post ->]]. eauto.
      * intros [post [= -> ->]]. eauto.
Qed.

Lemma includes_spec s sub :
  includes s sub = true <-> exists pre post, s = pre ++ sub ++ post.
Proof.
  induction s as [|c s IH].
  - simpl. rewrite orb_false_r, starts_with_spec. split.
    + intros [post ->]. exists [], post. reflexivity.
    + intros [[|x pre] [post E]]; [eauto | discriminate].
  - cbn [includes]. rewrite orb_true_iff, starts_with_spec, IH. split.
    + intros [[post ->] | [pre [post ->]]].
      * exists [], post. reflexivity.
      * exists (c :: pre), post. reflexivity.
    + intros [[|x pre] [post E]].
      * left. eauto.
      * right. injection E as -> ->. eauto.
Qed.

Lemma drop_ws_nil s : drop_ws s = [] <-> forallb is_whitespace s = true.
Proof.
  induction s as [|c s IH]; simpl; [easy|].
  destruct (is_whitespace c); simpl; [exact IH | easy].
Qed.

Lemma forallb_rev (f : N -> bool) s : forallb f (rev s) = forallb f s.
Proof.
  induction s as [|c s IH]; simpl; [reflexivity|].
  rewrite forallb_app, IH. simpl. rewrite andb_true_r. apply andb_comm.
Qed.

Lemma drop_ws_blank s : forallb is_whitespace s = true -> drop_ws s = [].
Proof. apply drop_ws_nil. Qed.

(** [s.trim()] is empty exactly when [s] holds white space only. *)
Lemma trim_nil s : trim s = [] <-> forallb is_whitespace s = true.
Proof.
  unfold trim. split.
  - intros E. apply (f_equal (@rev N)) in E. rewrite rev_involutive in E.
    simpl in E. apply drop_ws_nil in E. rewrite forallb_rev in E.
    destruct (forallb is_whitespace s) eqn:F; [reflexivity|].
    exfalso. clear -E F. induction s as [|c s IH]; simpl in *; [discriminate|].
    destruct (is_whitespace c) eqn:W; simpl in *; [auto|].
    rewrite W in E. discriminate.
  - intros F. rewrite (drop_ws_blank s F). reflexivity.
Qed.

(** A one-class pattern is found in [s] exactly when some code unit of
    [s] is in the class. *)
Lemma test_class items s :
  test (Atom (Class false items)) s
  = existsb (fun c => existsb (fun i => item_matches i c) items) s.
Proof.
  unfold test. induction s as [|c s IH]; [reflexivity|].
  cbn [exec match_here run atom_matches existsb xorb].
  destruct (existsb (fun i => item_matches i c) items); [reflexivity|].
  exact IH.
Qed.

Lemma existsb_elem (f : N -> bool) s :
  existsb f s = true <-> exists c, c ∈ s /\ f c = true.
Proof.
  rewrite existsb_exists. split; intros [c [H1 H2]]; exists c;
    (split; [apply list_elem_of_In; exact H1 | exact H2]).
Qed.

Lemma existsb_Chr (cs : list N) c :
  existsb (fun i => item_matches i c) (map Chr cs) = true <-> c ∈ cs.
Proof.
  induction cs as [|x cs IH]; simpl.
  - split; [discriminate | intros H; inversion H].
  - rewrite orb_true_iff, N.eqb_eq, IH, elem_of_cons. reflexivity.
Qed.
End StringFacts.

(** ** The session gate *)

Section GateFacts.
Import Gate.

(** C1.  For every combination of the three flags, [ProtectedRoute]
    renders exactly one of the four screens, chosen in strict priority
    order: loading unless initialized; else registration when it is
    required; else login unless authenticated; else the content. *)
Theorem gate_renders_one_screen_by_priority (a : auth) :
  (ProtectedRoute a = Loading <-> isInitialized a = false)
  /\ (ProtectedRoute a = RegisterScreen
      <-> isInitialized a = true /\ requiresRegistration a = true)
  /\ (ProtectedRoute a = LoginScreen
      <-> isInitialized a = true /\ requiresRegistration a = false
          /\ isAuthenticated a = false)
  /\ (ProtectedRoute a = Content
      <-> isInitialized a = true /\ requiresRegistration a = false
          /\ isAuthenticated a = true)
  /\ List.length
       (List.filter (fun sc => bool_decide (ProtectedRoute a = sc)) all_screens)
     = 1%nat.
Proof.
  destruct a as [au rr ini]. unfold ProtectedRoute. simpl.
  destruct ini, rr, au; simpl; repeat split; intros; try easy;
    repeat match goal with H : _ /\ _ |- _ => destruct H end; easy.
Qed.
End GateFacts.

(** ** The password policy *)

Section PasswordFacts.
Import Register.

Lemma every_Boolean_true (xs : list bool) :
  every_Boolean xs = true <-> forall b, b ∈ xs -> b = true.
Proof.
  unfold every_Boolean. rewrite forallb_forall. split; intros H b Hb.
  - apply (H b). apply list_elem_of_In. exact Hb.
  - apply H. apply list_elem_of_In. exact Hb.
Qed.

Lemma every_Boolean_perm (xs ys : list bool) :
  xs ≡ₚ ys -> every_Boolean xs = every_Boolean ys.
Proof.
  intros P. apply eq_true_iff_eq. rewrite !every_Boolean_true.
  split; intros H b Hb; apply H; [rewrite P | rewrite <- P]; exact Hb.
Qed.

Lemma in_range_iff lo hi c :
  (lo <=? c) && (c <=? hi) = true <-> lo <= c <= hi.
Proof. rewrite andb_true_iff, !N.leb_le. reflexivity. Qed.

Lemma test_range lo hi s :
  test (Atom (Class false [Range lo hi])) s = true
  <-> exists c, c ∈ s /\ lo <= c <= hi.
Proof.
  rewrite test_class, existsb_elem. simpl.
  split; intros [c [Hc H]]; exists c; split; try exact Hc.
  - rewrite orb_false_r in H. apply in_range_iff, H.
  - rewrite orb_false_r. apply in_range_iff, H.
Qed.

(** C2.  The five facts of the report follow their rules, the password
    is valid exactly when all five hold, and the verdict is the same in
    whatever order the five facts are taken. *)
Theorem isValid_iff_all_five_rules (st : state) :
  let p := password st in
  let r := checkPasswordStrength p in
  (hasMinLength r = true <-> (8 <= List.length p)%nat)
  /\ (hasUppercase r = true <-> exists c, c ∈ p /\ 65 <= c <= 90)
  /\ (hasLowercase r = true <-> exists c, c ∈ p /\ 97 <= c <= 122)
  /\ (hasNumber r = true <-> exists c, c ∈ p /\ 48 <= c <= 57)
  /\ (hasSpecialChar r = true <-> exists c, c ∈ p /\ c ∈ special_chars)
  /\ (isPasswordValid st = true
      <-> hasMinLength r = true /\ hasUppercase r = true
          /\ hasLowercase r = true /\ hasNumber r = true
          /\ hasSpecialChar r = true)
  /\ (forall facts, facts ≡ₚ Object_values r ->
      every_Boolean facts = isPasswordValid st).
Proof.
  intros p r. subst r. cbn [checkPasswordStrength hasMinLength hasUppercase
    hasLowercase hasNumber hasSpecialChar].
  split; [rewrite N.leb_le; lia|].
  split; [apply test_range|].
  split; [apply test_range|].
  split.
  { unfold re_digit. rewrite test_class, existsb_elem. simpl.
    split; intros [c [Hc H]]; exists c; split; try exact Hc.
    - rewrite orb_false_r in H. apply in_range_iff, H.
    - rewrite orb_false_r. apply in_range_iff, H. }
  split.
  { unfold re_special. rewrite test_class, existsb_elem.
    split; intros [c [Hc H]]; exists c; split; try exact Hc;
      apply existsb_Chr, H. }
  split.
  { unfold isPasswordValid, passwordStrength, every_Boolean, Object_values.
    fold p. cbn [forallb id checkPasswordStrength hasMinLength hasUppercase
      hasLowercase hasNumber hasSpecialChar].
    rewrite !andb_true_iff. tauto. }
  intros facts P. unfold isPasswordValid, passwordStrength. fold p.
  apply every_Boolean_perm, P.
Qed.
End PasswordFacts.

(** ** Registration *)

Section RegisterFacts.
Import Register.

Lemma on_outcome_no_request (o : fetch_outcome) (st : state) :
  requests (on_outcome o st).2 = [].
Proof.
  destruct o as [|status [data|]]; simpl; try reflexivity.
  destruct (ok status); reflexivity.
Qed.

(** The handler sends its one request exactly when the password passes
    the policy and the confirmation matches; the username plays no part. *)
Lemma handleSubmit_requests (st : state) (o : fetch_outcome) :
  requests (handleSubmit st o).2
  = if isPasswordValid st && passwordsMatch st
    then [register_request st] else [].
Proof.
  unfold handleSubmit.
  destruct (isPasswordValid st); simpl; [|reflexivity].
  destruct (passwordsMatch st); simpl; [|reflexivity].
  pose proof (on_outcome_no_request o (setLoading true (setError (VStr []) st))) as H.
  destruct (on_outcome o _) as [st3 es]. simpl in *.
  unfold requests in *. simpl. rewrite H. reflexivity.
Qed.

Lemma handleSubmit_rejected (st : state) (o : fetch_outcome) :
  isPasswordValid st = false \/ passwordsMatch st = false ->
  handleSubmit st o
  = (setError (VStr (local_message st)) (setError (VStr []) st),
     [PreventDefault]).
Proof.
  unfold handleSubmit, local_message.
  destruct (isPasswordValid st); simpl; [|reflexivity].
  destruct (passwordsMatch st); simpl; [|reflexivity].
  intros [H|H]; discriminate.
Qed.

Lemma abc_invalid (st : state) : isPasswordValid (setPassword (str "abc") st) = false.
Proof. reflexivity. Qed.

(** [passwordsMatch]: the confirmation is not empty and equals the
    password. *)
Lemma passwordsMatch_iff (st : state) :
  passwordsMatch st = true
  <-> confirmPassword st <> [] /\ confirmPassword st = password st.
Proof.
  unfold passwordsMatch. rewrite andb_true_iff, jsstring_eqb_eq, N.ltb_lt.
  destruct (confirmPassword st) as [|c cs]; simpl; split.
  - intros [_ H]. lia.
  - intros [H _]. contradiction.
  - intros [-> _]. split; [discriminate | reflexivity].
  - intros [_ <-]. split; [reflexivity | lia].
Qed.

(** C3.  A submission whose password fails the policy or whose
    confirmation does not match is rejected locally: the handler only
    sets a message that depends on the form alone, and sends nothing,
    whatever the network would have answered.  In particular the
    password abc never leads to a request. *)
Theorem registration_rejected_locally (st : state) (o : fetch_outcome) :
  isPasswordValid st = false \/ passwordsMatch st = false ->
  requests (handleSubmit st o).2 = []
  /\ (handleSubmit st o).2 = [PreventDefault]
  /\ error (handleSubmit st o).1 = VStr (local_message st)
  /\ loading (handleSubmit st o).1 = loading st
  /\ (forall st' o', requests (handleSubmit (setPassword (str "abc") st') o').2 = []).
Proof.
  intros H. pose proof (handleSubmit_rejected st o H) as E.
  do 4 (split; [rewrite E; reflexivity|]).
  intros st' o'. rewrite handleSubmit_requests, abc_invalid. reflexivity.
Qed.

Lemma registration_rejected_locally_witness :
  requests (handleSubmit abc_form Rejected).2 = []
  /\ error (handleSubmit abc_form Rejected).1
     = VStr (str "Please ensure your password meets all requirements").
Proof.
  destruct (registration_rejected_locally abc_form Rejected) as (H1 & _ & H3 & _).
  - left. reflexivity.
  - split; [exact H1 | exact H3].
Defined.

(** C4, as stated, fails: with a username of two characters the handler
    still sends the request. *)
Lemma short_username_is_submitted :
  (List.length (username short_username_form) < 3)%nat
  /\ requests (handleSubmit short_username_form Rejected).2
     = [register_request short_username_form]
  /\ requests (handleSubmit short_username_form Rejected).2 <> []
  /\ req_url (register_request short_username_form) = "/api/v1/auth/register".
Proof.
  split; [simpl; lia|].
  rewrite handleSubmit_requests.
  split; [reflexivity|]. split; [discriminate | reflexivity].
Qed.

Lemma register_body_lookup (st : state) :
  req_body (register_request st) !! "username" = Some (VStr (username st)).
Proof.
  unfold register_request, JSON_stringify. simpl.
  apply map_lookup_filter_Some. split; [|simpl; discriminate].
  rewrite lookup_insert_ne by discriminate.
  rewrite lookup_insert_ne by discriminate.
  apply lookup_singleton_eq.
Qed.

(** C4, amended.  The handler does not look at the length of the
    username: for any username it sends exactly one request, carrying
    that username unchanged, exactly when the password is valid and
    confirmed, and none otherwise.  The bounds 3 and 50 exist only as
    attributes of the username input. *)
Theorem registration_ignores_username_length (st : state) (o : fetch_outcome) :
  requests (handleSubmit st o).2
  = (if isPasswordValid st && passwordsMatch st
     then [register_request st] else [])
  /\ (forall u, isPasswordValid (setUsername u st) = isPasswordValid st
                /\ passwordsMatch (setUsername u st) = passwordsMatch st)
  /\ req_body (register_request st) !! "username" = Some (VStr (username st))
  /\ username_input
     = {| required := true; minLength := Some 3; maxLength := Some 50 |}.
Proof.
  split; [apply handleSubmit_requests|].
  split; [intros u; split; reflexivity|].
  split; [apply register_body_lookup | reflexivity].
Qed.
End RegisterFacts.

(** ** Login *)

Section LoginFacts.
Import Login.

Lemma truthy_nonempty (m : jsstring) : m <> [] -> truthy (VStr m) = true.
Proof.
  intros H. simpl. destruct (jsstring_eqb m []) eqn:E; [|reflexivity].
  apply jsstring_eqb_nil in E. contradiction.
Qed.

Lemma get_absent (o : gmap string value) (k : string) :
  o !! k = None -> get o k = VUndefined.
Proof. intros H. unfold get. rewrite H. reflexivity. Qed.

Lemma login_not_ok (st : state) (status : N) (data : gmap string value) :
  ok status = false ->
  handleSubmit st (Responded status (Some data))
  = (setLoading false
       (setError (or_else (get data "error") (VStr login_failed))
                 (setLoading true (setError (VStr []) st))),
     [PreventDefault; Fetch (login_request st)]).
Proof. intros H. unfold handleSubmit. simpl. rewrite H. reflexivity. Qed.

(** C9, as stated, fails: a response with status 502 whose body cannot be
    read did arrive (the request was sent and answered, so this is no
    transport failure) and carries no message, yet the form shows the
    network text and not Login failed. *)
Lemma unreadable_rejection_shows_network_text :
  ok 502 = false
  /\ requests (handleSubmit initial (Responded 502 None)).2
     = [login_request initial]
  /\ error (handleSubmit initial (Responded 502 None)).1
     = VStr (str "Network error. Please try again.")
  /\ error (handleSubmit initial (Responded 502 None)).1
     <> VStr (str "Login failed").
Proof.
  split; [reflexivity|]. split; [reflexivity|]. split; [reflexivity|].
  discriminate.
Qed.

(** C9, amended.  The error shown after a login submission, for every
    outcome: the value of the server, unchanged, when a response outside
    200 to 299 has a readable body that carries one (a truthy [error]
    field, such as a message that is not empty); the fixed text Login
    failed when that readable body carries none; the fixed network text
    when the request fails in transport and also when the body of the
    response cannot be read, whatever its status; no error after a
    readable response in 200 to 299.  The network text differs from the
    default rejection text, and after a readable rejection it is shown
    only if the server sent that very text. *)
Theorem login_error_by_outcome (st : state) :
  (forall status data m,
      ok status = false -> get data "error" = VStr m -> m <> [] ->
      error (handleSubmit st (Responded status (Some data))).1 = VStr m)
  /\ (forall status data,
      ok status = false ->
      data !! "error" = None \/ truthy (get data "error") = false ->
      error (handleSubmit st (Responded status (Some data))).1
      = VStr (str "Login failed"))
  /\ error (handleSubmit st Rejected).1
     = VStr (str "Network error. Please try again.")
  /\ (forall status,
      error (handleSubmit st (Responded status None)).1
      = VStr (str "Network error. Please try again.")
      /\ (handleSubmit st (Responded status None)).2
         = [PreventDefault; Fetch (login_request st); ConsoleError "Login error:"])
  /\ (forall status data,
      ok status = false -> truthy (get data "error") = true ->
      error (handleSubmit st (Responded status (Some data))).1
      = get data "error")
  /\ (forall status data,
      ok status = true ->
      error (handleSubmit st (Responded status (Some data))).1 = VStr []
      /\ (handleSubmit st (Responded status (Some data))).2
         = [PreventDefault; Fetch (login_request st); OnLogin (get data "token")])
  /\ str "Network error. Please try again." <> str "Login failed"
  /\ (forall status data,
      ok status = false ->
      error (handleSubmit st (Responded status (Some data))).1
      = VStr (str "Network error. Please try again.") ->
      get data "error" = VStr (str "Network error. Please try again."))
  /\ (forall status data,
      ok status = false ->
      (handleSubmit st (Responded status (Some data))).2
      = [PreventDefault; Fetch (login_request st)])
  /\ (handleSubmit st Rejected).2
     = [PreventDefault; Fetch (login_request st); ConsoleError "Login error:"].
Proof.
  split.
  { intros status data m Hok Hm Hne. rewrite (login_not_ok st status data Hok).
    simpl. unfold or_else. rewrite Hm, (truthy_nonempty m Hne). reflexivity. }
  split.
  { intros status data Hok Hnone. rewrite (login_not_ok st status data Hok).
    simpl. unfold or_else.
    destruct Hnone as [H|H]; [rewrite (get_absent _ _ H)|rewrite H]; reflexivity. }
  split; [reflexivity|].
  split; [intros status; split; reflexivity|].
  split.
  { intros status data Hok Ht. rewrite (login_not_ok st status data Hok).
    simpl. unfold or_else. rewrite Ht. reflexivity. }
  split.
  { intros status data Hok. unfold handleSubmit. cbn [on_outcome].
    rewrite Hok. split; reflexivity. }
  split; [discriminate|].
  split.
  { intros status data Hok. rewrite (login_not_ok st status data Hok).
    simpl. unfold or_else.
    destruct (truthy (get data "error")); [auto | discriminate]. }
  split; [|reflexivity].
  intros status data Hok. rewrite (login_not_ok st status data Hok). reflexivity.
Qed.

Lemma login_error_by_outcome_witness :
  error (handleSubmit initial (Responded 401 (Some invalid_credentials))).1
  = VStr (str "Invalid credentials")
  /\ error (handleSubmit initial (Responded 500 (Some ∅))).1
     = VStr (str "Login failed").
Proof.
  destruct (login_error_by_outcome initial) as (H1 & H2 & _).
  split.
  - apply (H1 401 invalid_credentials (str "Invalid credentials"));
      [reflexivity | reflexivity | discriminate].
  - apply (H2 500 ∅); [reflexivity | left; reflexivity].
Defined.
End LoginFacts.

(** ** Initialization of the session *)

Section SessionFacts.
Import Gate Session.

(** C8.  When the initialization check fails, the gate leaves the
    loading screen with that one attempt: a session that was loading and
    holds no usable token shows the login screen afterwards, with
    registration taken as not required. *)
Theorem failed_initialization_settles_into_login (s : session) :
  initialized s = false -> authenticated s = false ->
  ProtectedRoute (useAuth s) = Loading
  /\ ProtectedRoute (useAuth (initialize s InitFailed)) = LoginScreen
  /\ registrationRequired (initialize s InitFailed) = false
  /\ initialized (initialize s InitFailed) = true.
Proof.
  intros Hi Ha. unfold ProtectedRoute, useAuth, authenticated in *. simpl.
  rewrite Hi. simpl. destruct (token s) as [t|]; simpl in *;
    [rewrite Ha|]; repeat split.
Qed.

Lemma failed_initialization_settles_into_login_witness :
  ProtectedRoute (useAuth at_start) = Loading
  /\ ProtectedRoute (useAuth (initialize at_start InitFailed)) = LoginScreen.
Proof.
  destruct (failed_initialization_settles_into_login at_start) as (H1 & H2 & _);
    [reflexivity | reflexivity |].
  split; [exact H1 | exact H2].
Defined.
End SessionFacts.

(** ** Media import *)

Section YouTubeFacts.
Import YouTube.
Variable headers : gmap string jsstring.

Lemma youtube_on_outcome_no_request (o : fetch_outcome) (st : state) :
  requests (on_outcome o st).2 = [].
Proof.
  destruct o as [|status [data|]]; simpl; try reflexivity;
    destruct (ok status); reflexivity.
Qed.

(** The dialog sends its one request exactly when the URL is not blank
    and passes [validateYouTubeUrl]. *)
Lemma youtube_requests (st : state) (o : fetch_outcome) :
  requests (handleSubmit headers st o).2
  = if negb (jsstring_eqb (trim (url st)) []) && validateYouTubeUrl (url st)
    then [download_request headers st] else [].
Proof.
  unfold handleSubmit.
  destruct (jsstring_eqb (trim (url st)) []); simpl; [reflexivity|].
  destruct (validateYouTubeUrl (url st)); simpl; [|reflexivity].
  pose proof (youtube_on_outcome_no_request o
                (setError None (setIsDownloading true st))) as H.
  destruct (on_outcome o _) as [st2 es]. simpl in *.
  unfold requests in *. simpl. rewrite H. reflexivity.
Qed.

Lemma download_body_url (st : state) :
  req_body (download_request headers st) !! "url"
  = Some (VStr (trim (url st))).
Proof.
  unfold download_request, JSON_stringify. simpl.
  apply map_lookup_filter_Some. split; [|simpl; discriminate].
  rewrite lookup_insert_ne by discriminate.
  apply lookup_singleton_eq.
Qed.

(** The identifier is found in the other shapes of link as well. *)
Example watch_link_id : getYouTubeVideoId watch_link = Some (str "dQw4w9WgXcQ").
Proof. vm_compute. reflexivity. Qed.

Example embed_link_id : getYouTubeVideoId embed_link = Some (str "dQw4w9WgXcQ").
Proof. vm_compute. reflexivity. Qed.

Example foreign_link_id : getYouTubeVideoId foreign_link = None.
Proof. vm_compute. reflexivity. Qed.

(** C5.  The short link is accepted and submitted, and its identifier is
    extracted; the link to another site is rejected by the dialog: the
    error it shows afterwards is the validation message, the only effect
    is [preventDefault], nothing is sent, and the dialog neither starts
    downloading nor reports success. *)
Theorem short_link_accepted_foreign_link_rejected
        (st : state) (o : fetch_outcome) :
  validateYouTubeUrl short_link = true
  /\ getYouTubeVideoId short_link = Some (str "dQw4w9WgXcQ")
  /\ requests (handleSubmit headers (setUrl short_link st) o).2
     = [download_request headers (setUrl short_link st)]
  /\ req_body (download_request headers (setUrl short_link st)) !! "url"
     = Some (VStr short_link)
  /\ validateYouTubeUrl foreign_link = false
  /\ handleSubmit headers (setUrl foreign_link st) o
     = (setError (Some (VStr (str "Please enter a valid YouTube URL")))
                 (setUrl foreign_link st),
        [PreventDefault])
  /\ requests (handleSubmit headers (setUrl foreign_link st) o).2 = []
  /\ error (handleSubmit headers (setUrl foreign_link st) o).1
     = Some (VStr (str "Please enter a valid YouTube URL"))
  /\ (handleSubmit headers (setUrl foreign_link st) o).2 = [PreventDefault]
  /\ url (handleSubmit headers (setUrl foreign_link st) o).1 = foreign_link
  /\ isDownloading (handleSubmit headers (setUrl foreign_link st) o).1
     = isDownloading st
  /\ success (handleSubmit headers (setUrl foreign_link st) o).1 = success st.
Proof.
  split; [reflexivity|]. split; [vm_compute; reflexivity|].
  split; [rewrite youtube_requests; reflexivity|].
  split; [rewrite download_body_url; reflexivity|].
  split; [reflexivity|]. split; [reflexivity|].
  split; [rewrite youtube_requests; reflexivity|].
  repeat split.
Qed.

(** C10.  [validateYouTubeUrl] accepts a string exactly when one of the
    two host names occurs somewhere in it; so a link to another site
    that merely mentions one of them passes, and is submitted. *)
Theorem validation_is_substring_search
        (u : jsstring) (st : state) (o : fetch_outcome) :
  (validateYouTubeUrl u = true
   <-> (exists pre post, u = pre ++ str "youtube.com" ++ post)
       \/ (exists pre post, u = pre ++ str "youtu.be" ++ post))
  /\ validateYouTubeUrl referrer_link = true
  /\ requests (handleSubmit headers (setUrl referrer_link st) o).2
     = [download_request headers (setUrl referrer_link st)]
  /\ req_body (download_request headers (setUrl referrer_link st)) !! "url"
     = Some (VStr referrer_link)
  /\ req_url (download_request headers (setUrl referrer_link st))
     = "/api/v1/transcription/youtube".
Proof.
  split.
  { unfold validateYouTubeUrl.
    rewrite orb_true_iff, !includes_spec. reflexivity. }
  split; [reflexivity|].
  split; [rewrite youtube_requests; reflexivity|].
  split; [rewrite download_body_url; reflexivity | reflexivity].
Qed.
End YouTubeFacts.

(** ** LLM settings *)

Section LLMFacts.
Import LLMSettings.
Variable headers : gmap string jsstring.

Lemma is_ollama_iff (st : state) :
  is_ollama st = true <-> provider st = VStr (str "ollama").
Proof. unfold is_ollama, strict_eq. apply bool_decide_eq_true. Qed.

Lemma is_openai_iff (st : state) :
  is_openai st = true <-> provider st = VStr (str "openai").
Proof. unfold is_openai, strict_eq. apply bool_decide_eq_true. Qed.

Lemma stringify_lookup (o : gmap string value) (k : string) (v : value) :
  v <> VUndefined -> o !! k = Some v -> JSON_stringify o !! k = Some v.
Proof.
  intros Hv Hk. unfold JSON_stringify. apply map_lookup_filter_Some. auto.
Qed.

Lemma stringify_dom (o : gmap string value) (k : string) :
  is_Some (JSON_stringify o !! k) -> is_Some (o !! k).
Proof.
  intros [v Hv]. unfold JSON_stringify in Hv.
  apply map_lookup_filter_Some in Hv. destruct Hv as [Hv _]. eauto.
Qed.

Lemma payload_is_active (st : state) :
  payload st !! "is_active" = Some (VBool true).
Proof.
  unfold payload, spread_if.
  destruct (is_openai st), (is_ollama st); simplify_map_eq; reflexivity.
Qed.

Lemma payload_base_url (st : state) :
  payload st !! "base_url"
  = if is_ollama st then Some (VStr (baseUrl st)) else None.
Proof.
  unfold payload, spread_if.
  destruct (is_openai st), (is_ollama st); simplify_map_eq; reflexivity.
Qed.

Lemma payload_api_key (st : state) :
  payload st !! "api_key"
  = if is_openai st then Some (VStr (apiKey st)) else None.
Proof.
  unfold payload, spread_if.
  destruct (is_openai st), (is_ollama st); simplify_map_eq; reflexivity.
Qed.

Lemma payload_other (st : state) (k : string) :
  k <> "provider" -> k <> "is_active" -> k <> "base_url" -> k <> "api_key" ->
  payload st !! k = None.
Proof.
  intros H1 H2 H3 H4. unfold payload, spread_if.
  destruct (is_openai st), (is_ollama st);
    repeat (apply lookup_union_None; split);
    rewrite ?lookup_empty; try reflexivity;
    try (apply lookup_singleton_ne; congruence);
    rewrite lookup_insert_ne by congruence;
    apply lookup_singleton_ne; congruence.
Qed.

Lemma handleSave_requests (st : state) (o : fetch_outcome) :
  requests (handleSave headers st o).2 = [save_request headers st].
Proof.
  unfold handleSave.
  destruct o as [|status [data|]]; simpl; try reflexivity.
  destruct (ok status); reflexivity.
Qed.

(** C6.  Every save sends one request whose payload has [is_active]
    true, whatever the stored configuration says, and, besides the
    provider, holds the base URL exactly when the provider is ollama and
    the API key exactly when the provider is openai, each with the value
    of its form field, and no other field. *)
Theorem save_payload_shape (st : state) (o : fetch_outcome) :
  let body := req_body (save_request headers st) in
  requests (handleSave headers st o).2 = [save_request headers st]
  /\ body !! "is_active" = Some (VBool true)
  /\ (is_Some (body !! "base_url") <-> provider st = VStr (str "ollama"))
  /\ (is_Some (body !! "api_key") <-> provider st = VStr (str "openai"))
  /\ (forall v, body !! "base_url" = Some v <-> 
                provider st = VStr (str "ollama") /\ v = VStr (baseUrl st))
  /\ (forall v, body !! "api_key" = Some v <->
                provider st = VStr (str "openai") /\ v = VStr (apiKey st))
  /\ (forall k, is_Some (body !! k) ->
                k = "provider" \/ k = "is_active" \/ k = "base_url"
                \/ k = "api_key").
Proof.
  intros body. subst body. cbn [save_request req_body].
  assert (Hb : forall v, JSON_stringify (payload st) !! "base_url" = Some v
               <-> provider st = VStr (str "ollama") /\ v = VStr (baseUrl st)).
  { intros v. rewrite <- is_ollama_iff. unfold JSON_stringify.
    rewrite map_lookup_filter_Some, payload_base_url.
    destruct (is_ollama st); simpl; split.
    - intros [[= <-] _]. auto.
    - intros [_ ->]. split; [reflexivity | discriminate].
    - intros [[=] _].
    - intros [[=] _]. }
  assert (Hk : forall v, JSON_stringify (payload st) !! "api_key" = Some v
               <-> provider st = VStr (str "openai") /\ v = VStr (apiKey st)).
  { intros v. rewrite <- is_openai_iff. unfold JSON_stringify.
    rewrite map_lookup_filter_Some, payload_api_key.
    destruct (is_openai st); simpl; split.
    - intros [[= <-] _]. auto.
    - intros [_ ->]. split; [reflexivity | discriminate].
    - intros [[=] _].
    - intros [[=] _]. }
  split; [apply handleSave_requests|].
  split; [apply stringify_lookup; [discriminate | apply payload_is_active]|].
  split.
  { split.
    - intros [v Hv]. apply Hb in Hv. tauto.
    - intros H. exists (VStr (baseUrl st)). apply Hb. auto. }
  split.
  { split.
    - intros [v Hv]. apply Hk in Hv. tauto.
    - intros H. exists (VStr (apiKey st)). apply Hk. auto. }
  split; [exact Hb|]. split; [exact Hk|].
  intros k Hsome. apply stringify_dom in Hsome.
  destruct (decide (k = "provider")) as [|H1]; [auto|].
  destruct (decide (k = "is_active")) as [|H2]; [auto|].
  destruct (decide (k = "base_url")) as [|H3]; [auto|].
  destruct (decide (k = "api_key")) as [|H4]; [auto|].
  rewrite (payload_other st k H1 H2 H3 H4) in Hsome.
  destruct Hsome as [x Hx]. discriminate.
Qed.

Lemma truthy_or_else (a b : value) :
  truthy (or_else a b) = truthy a || truthy b.
Proof. unfold or_else. destruct (truthy a) eqn:E; [rewrite E|]; reflexivity. Qed.

Lemma not_blank_iff (s : jsstring) :
  negb (jsstring_eqb (trim s) []) = true <-> trim s <> [].
Proof.
  rewrite negb_true_iff. split.
  - intros H E. apply jsstring_eqb_nil in E. congruence.
  - intros H. destruct (jsstring_eqb (trim s) []) eqn:E; [|reflexivity].
    apply jsstring_eqb_nil in E. contradiction.
Qed.

Lemma openai_not_ollama (st : state) :
  provider st = VStr (str "openai") -> is_ollama st = false.
Proof.
  intros H. unfold is_ollama, strict_eq. rewrite H.
  apply bool_decide_eq_false. discriminate.
Qed.

(** C7, as stated, fails: with openai selected and no stored key, a key
    field holding one space is not empty, yet the save control stays
    disabled. *)
Lemma blank_key_keeps_save_disabled :
  provider blank_key_form = VStr (str "openai")
  /\ get (config blank_key_form) "has_api_key" = VUndefined
  /\ apiKey blank_key_form <> []
  /\ truthy (isFormValid blank_key_form) = false
  /\ save_disabled blank_key_form = true.
Proof.
  split; [vm_compute; reflexivity|]. split; [vm_compute; reflexivity|].
  split; [discriminate|].
  split; vm_compute; reflexivity.
Qed.

(** C7, amended.  The save control is enabled, for ollama, exactly when
    the base URL field is not blank (not empty once white space is
    trimmed), and, for openai, exactly when the key field is not blank
    or the stored configuration reports an existing key.  So ollama with
    an empty base URL leaves it disabled, and openai with an existing
    key and an empty key field leaves it enabled unless a save is
    running. *)
Theorem save_enabled_iff_field_not_blank (st : state) :
  (provider st = VStr (str "ollama") ->
   (truthy (isFormValid st) = true <-> trim (baseUrl st) <> [])
   /\ (baseUrl st = [] -> save_disabled st = true))
  /\ (provider st = VStr (str "openai") ->
      (truthy (isFormValid st) = true
       <-> trim (apiKey st) <> []
           \/ truthy (get (config st) "has_api_key") = true)
      /\ (get (config st) "has_api_key" = VBool true -> apiKey st = [] ->
          truthy (isFormValid st) = true /\ save_disabled st = saving st))
  /\ (forall s : jsstring, trim s = [] <-> forallb is_whitespace s = true).
Proof.
  split; [|split; [|exact trim_nil]].
  - intros H. apply is_ollama_iff in H. unfold save_disabled, isFormValid.
    rewrite H. cbn [truthy]. split; [apply not_blank_iff|].
    intros ->. reflexivity.
  - intros H. pose proof (openai_not_ollama st H) as Hn.
    apply is_openai_iff in H. unfold save_disabled, isFormValid.
    rewrite Hn, H, truthy_or_else. cbn [truthy]. split.
    + rewrite orb_true_iff, not_blank_iff. reflexivity.
    + intros -> ->. split; reflexivity.
Qed.

Lemma save_enabled_iff_field_not_blank_witness :
  save_disabled (setBaseUrl [] initial) = true
  /\ truthy (isFormValid stored_key_form) = true.
Proof.
  split.
  - apply (proj1 (save_enabled_iff_field_not_blank (setBaseUrl [] initial)));
      [vm_compute; reflexivity | reflexivity].
  - apply (proj1 (proj2 (save_enabled_iff_field_not_blank stored_key_form)));
      [vm_compute; reflexivity | vm_compute; reflexivity | reflexivity].
Defined.
End LLMFacts.

(** * Further properties of the components *)

(** ** What a successful match tells *)

Section MatcherFacts.
Context {R : Type}.
Implicit Types (s : jsstring) (a : atom).

(** A repetition that succeeds has read a run of matching characters whose
    length respects both bounds, and handed the rest to its continuation. *)
Lemma rep_success a s : forall (min : nat) (max : option nat)
    (k : jsstring -> option R) (x : R),
  rep a min max s k = Some x ->
  exists pre rest,
    s = pre ++ rest /\ k rest = Some x
    /\ Forall (fun c => atom_matches a c = true) pre
    /\ (min <= List.length pre)%nat
    /\ (forall m, max = Some m -> (List.length pre <= m)%nat).
Proof.
  induction s as [|c s IH]; intros min max k x H.
  - simpl in H. destruct (Nat.eqb min 0) eqn:E; [|discriminate].
    apply Nat.eqb_eq in E. exists [], []. repeat split; auto; simpl; lia.
  - cbn [rep] in H.
    assert (Hstop : (if Nat.eqb min 0 then k (c :: s) else None) = Some x ->
                    exists pre rest,
                      c :: s = pre ++ rest /\ k rest = Some x
                      /\ Forall (fun c => atom_matches a c = true) pre
                      /\ (min <= List.length pre)%nat
                      /\ (forall m, max = Some m -> (List.length pre <= m)%nat)).
    { intros Hs. destruct (Nat.eqb min 0) eqn:E; [|discriminate].
      apply Nat.eqb_eq in E. exists [], (c :: s).
      repeat split; auto; simpl; lia. }
    destruct (atom_matches a c && may_take max) eqn:T; [|auto].
    destruct (rep a (Nat.pred min) (dec_max max) s k) as [y|] eqn:Hr; [|auto].
    injection H as ->.
    apply andb_true_iff in T. destruct T as [Tc Tm].
    destruct (IH _ _ _ _ Hr) as (pre & rest & -> & Hk & Hall & Hmin & Hmax).
    exists (c :: pre), rest. repeat split; auto.
    + simpl. lia.
    + intros m ->. simpl in *. destruct m as [|m]; [discriminate|].
      specialize (Hmax m eq_refl). lia.
Qed.

(** Whatever a pattern returns came from its continuation, called on a
    suffix of the input. *)
Lemma run_success (r : regex) : forall s cap
    (k : jsstring -> option jsstring -> option R) (x : R),
  run r s cap k = Some x ->
  exists pre rest cap', s = pre ++ rest /\ k rest cap' = Some x.
Proof.
  induction r as [|a|r1 IH1 r2 IH2|r1 IH1 r2 IH2|r1 IH1|a min max|r1 IH1];
    intros s cap k x H; cbn [run] in H.
  - exists [], s, cap. auto.
  - destruct s as [|c s]; [discriminate|].
    destruct (atom_matches a c); [|discriminate].
    exists [c], s, cap. auto.
  - destruct (IH1 _ _ _ _ H) as (p1 & s1 & c1 & -> & H1).
    destruct (IH2 _ _ _ _ H1) as (p2 & s2 & c2 & -> & H2).
    exists (p1 ++ p2), s2, c2. rewrite <- app_assoc. auto.
  - destruct (run r1 s cap k) as [y|] eqn:E.
    + injection H as ->. eauto.
    + eauto.
  - destruct (run r1 s cap k) as [y|] eqn:E.
    + injection H as ->. eauto.
    + exists [], s, cap. auto.
  - destruct (rep_success _ _ _ _ _ _ H) as (pre & rest & -> & Hk & _).
    exists pre, rest, cap. auto.
  - destruct (IH1 _ _ _ _ H) as (p1 & s1 & c1 & -> & H1). eauto.
Qed.

(** A literal pattern reads exactly its text. *)
Lemma lit_success (p : jsstring) : forall s cap
    (k : jsstring -> option jsstring -> option R) (x : R),
  run (lit p) s cap k = Some x ->
  exists rest, s = p ++ rest /\ k rest cap = Some x.
Proof.
  induction p as [|c p IH]; intros s cap k x H; cbn [lit run] in H.
  - exists s. auto.
  - destruct s as [|d s]; [discriminate|].
    cbn [atom_matches] in H. destruct (d =? c) eqn:E; [|discriminate].
    apply N.eqb_eq in E. subst d.
    destruct (IH _ _ _ _ H) as (rest & -> & Hk). exists rest. auto.
Qed.
End MatcherFacts.

Lemma consumed_app (pre rest : jsstring) : consumed (pre ++ rest) rest = pre.
Proof.
  unfold consumed. rewrite length_app.
  replace (List.length pre + List.length rest - List.length rest)%nat
    with (List.length pre) by lia.
  apply take_app_length.
Qed.

(** [exec] returns what the pattern matches at some position. *)
Lemma exec_success (r : regex) (s : jsstring) (m : match_result) :
  exec r s = Some m ->
  exists pre rest, s = pre ++ rest /\ match_here r rest = Some m.
Proof.
  induction s as [|c s IH]; cbn [exec]; intros H.
  - destruct (match_here r []) eqn:E; [|discriminate].
    injection H as ->. exists [], []. auto.
  - destruct (match_here r (c :: s)) eqn:E.
    + injection H as ->. exists [], (c :: s). auto.
    + destruct (IH H) as (pre & rest & -> & Hm).
      exists (c :: pre), rest. auto.
Qed.

(** ** Media import: the identifier and the URL that is sent *)

Section VideoIdFacts.
Import YouTube.

Lemma re_id_char (c : N) :
  atom_matches (Class true [Chr dquote; Chr 38; Chr 63; Chr 47; Space]) c = true ->
  id_char c.
Proof.
  unfold id_char, dquote. cbn [atom_matches existsb item_matches].
  destruct (c =? 34) eqn:E1; [discriminate|].
  destruct (c =? 38) eqn:E2; [discriminate|].
  destruct (c =? 63) eqn:E3; [discriminate|].
  destruct (c =? 47) eqn:E4; [discriminate|].
  destruct (is_whitespace c) eqn:E5; [discriminate|].
  apply N.eqb_neq in E1, E2, E3, E4. auto.
Qed.

(** Where the pattern of [getYouTubeVideoId] matches, the text starts with
    one of the two host names and a slash, and capture 1 holds eleven
    identifier characters of the text. *)
Lemma video_id_match_here (s : jsstring) (m : match_result) :
  match_here video_id_regex s = Some m ->
  ((exists rest, s = str "youtube.com/" ++ rest)
   \/ (exists rest, s = str "youtu.be/" ++ rest))
  /\ exists pre id post,
       s = pre ++ id ++ post /\ group1 m = Some id
       /\ List.length id = 11%nat /\ Forall id_char id.
Proof.
  unfold match_here, video_id_regex. cbn [run]. intros H. split.
  - match type of H with
    | match ?a with Some _ => _ | None => _ end = _ => destruct a as [y|] eqn:E
    end.
    + left. destruct (lit_success _ _ _ _ _ E) as (rest & -> & _). eauto.
    + right. destruct (lit_success _ _ _ _ _ H) as (rest & -> & _). eauto.
  - change (run (Alt (Seq (lit (str "youtube.com/"))
                          (Alt re_path (Alt re_embed re_query)))
                     (lit (str "youtu.be/"))) s None
              (fun s1 cap1 =>
                 run (Group re_id) s1 cap1
                     (fun rest cap =>
                        Some {| whole := consumed s rest; group1 := cap |}))
            = Some m) in H.
    destruct (run_success _ _ _ _ _ H) as (pre & s1 & cap' & -> & H1).
    unfold re_id in H1. cbn [run] in H1.
    destruct (rep_success _ _ _ _ _ _ H1) as (id & post & -> & Hk & Hall & Hmin & Hmax).
    injection Hk as <-. exists pre, id, post. cbn [group1].
    rewrite consumed_app. repeat split.
    + specialize (Hmax 11%nat eq_refl). lia.
    + eapply Forall_impl; [exact Hall|]. intros c Hc. apply re_id_char, Hc.
Qed.

(** The identifier that [getYouTubeVideoId] extracts has exactly eleven
    code units, none of them a double quote, ampersand, question mark,
    slash or white space, and occurs in the URL. *)
Theorem video_id_shape (u id : jsstring) :
  getYouTubeVideoId u = Some id ->
  List.length id = 11%nat
  /\ Forall id_char id
  /\ exists pre post, u = pre ++ id ++ post.
Proof.
  unfold getYouTubeVideoId, string_match. intros H.
  destruct (exec video_id_regex u) as [m|] eqn:E; [|discriminate].
  destruct (exec_success _ _ _ E) as (p0 & s & -> & Hm).
  destruct (video_id_match_here s m Hm) as (_ & pre & id' & post & -> & Hg & Hl & Hc).
  rewrite Hg in H. injection H as <-.
  split; [exact Hl|]. split; [exact Hc|].
  exists (p0 ++ pre), post. rewrite <- app_assoc. reflexivity.
Qed.

Lemma video_id_shape_witness :
  List.length (str "dQw4w9WgXcQ") = 11%nat /\ Forall id_char (str "dQw4w9WgXcQ").
Proof.
  destruct (video_id_shape short_link (str "dQw4w9WgXcQ")) as (H1 & H2 & _).
  - vm_compute. reflexivity.
  - split; [exact H1 | exact H2].
Defined.

(** Whenever an identifier is extracted (and the thumbnail shown), the URL
    also passes [validateYouTubeUrl]. *)
Theorem video_id_implies_valid_url (u id : jsstring) :
  getYouTubeVideoId u = Some id -> validateYouTubeUrl u = true.
Proof.
  unfold getYouTubeVideoId, string_match. intros H.
  destruct (exec video_id_regex u) as [m|] eqn:E; [|discriminate].
  destruct (exec_success _ _ _ E) as (p0 & s & -> & Hm).
  destruct (video_id_match_here s m Hm) as ([[rest ->]|[rest ->]] & _);
    unfold validateYouTubeUrl; apply orb_true_iff; [left|right];
    apply includes_spec; exists p0, (47 :: rest); reflexivity.
Qed.

Lemma video_id_implies_valid_url_witness : validateYouTubeUrl watch_link = true.
Proof.
  apply (video_id_implies_valid_url watch_link (str "dQw4w9WgXcQ")).
  vm_compute. reflexivity.
Defined.
End VideoIdFacts.

Section TrimFacts.
Implicit Types (s sub pre post : jsstring).

Lemma drop_ws_keeps c t : is_whitespace c = false ->
  forall pre, exists pre', drop_ws (pre ++ c :: t) = pre' ++ c :: t.
Proof.
  intros Hc. induction pre as [|x pre IH]; simpl.
  - rewrite Hc. exists []. reflexivity.
  - destruct (is_whitespace x); [exact IH|].
    exists (x :: pre). reflexivity.
Qed.

(** Trimming cannot cut into a piece of text that neither starts nor ends
    with white space. *)
Lemma trim_keeps sub c t d t' :
  sub = c :: t -> is_whitespace c = false ->
  rev sub = d :: t' -> is_whitespace d = false ->
  forall pre post, exists pre' post', trim (pre ++ sub ++ post) = pre' ++ sub ++ post'.
Proof.
  intros Es Hc Er Hd pre post. unfold trim.
  assert (E1 : exists pre', drop_ws (pre ++ sub ++ post) = pre' ++ sub ++ post).
  { subst sub. exact (drop_ws_keeps c (t ++ post) Hc pre). }
  destruct E1 as (pre' & ->).
  rewrite !rev_app_distr, <- app_assoc.
  assert (E2 : exists q, drop_ws (rev post ++ rev sub ++ rev pre')
                         = q ++ rev sub ++ rev pre').
  { rewrite Er. exact (drop_ws_keeps d (t' ++ rev pre') Hd (rev post)). }
  destruct E2 as (q & ->).
  exists pre', (rev q).
  rewrite !rev_app_distr, !rev_involutive, <- app_assoc. reflexivity.
Qed.

Lemma includes_trim sub c t d t' s :
  sub = c :: t -> is_whitespace c = false ->
  rev sub = d :: t' -> is_whitespace d = false ->
  includes s sub = true -> includes (trim s) sub = true.
Proof.
  intros Es Hc Er Hd H. apply includes_spec in H. destruct H as (pre & post & ->).
  destruct (trim_keeps sub c t d t' Es Hc Er Hd pre post) as (pre' & post' & E).
  apply includes_spec. eauto.
Qed.
End TrimFacts.

Section DownloadFacts.
Import YouTube.
Variable headers : gmap string jsstring.

Lemma validate_trim (u : jsstring) :
  validateYouTubeUrl u = true -> validateYouTubeUrl (trim u) = true.
Proof.
  unfold validateYouTubeUrl. rewrite !orb_true_iff. intros [H|H]; [left|right].
  - eapply includes_trim; [reflexivity | reflexivity | | | exact H];
      [vm_compute; reflexivity | reflexivity].
  - eapply includes_trim; [reflexivity | reflexivity | | | exact H];
      [vm_compute; reflexivity | reflexivity].
Qed.

Lemma valid_url_not_blank (u : jsstring) :
  validateYouTubeUrl u = true -> jsstring_eqb (trim u) [] = false.
Proof.
  intros H. apply validate_trim in H.
  destruct (jsstring_eqb (trim u) []) eqn:E; [|reflexivity].
  apply jsstring_eqb_nil in E. rewrite E in H. discriminate.
Qed.

(** The check runs on the URL as typed while the request carries the
    trimmed URL: the URL that is sent passes the check as well, and is not
    empty. *)
Theorem trimmed_url_still_valid (st : state) :
  validateYouTubeUrl (url st) = true ->
  req_body (download_request headers st) !! "url" = Some (VStr (trim (url st)))
  /\ validateYouTubeUrl (trim (url st)) = true
  /\ trim (url st) <> [].
Proof.
  intros H. split; [apply download_body_url|]. split; [apply validate_trim, H|].
  intros E. apply valid_url_not_blank in H. rewrite E in H. discriminate.
Qed.

(** The dialog sends its request exactly when [validateYouTubeUrl] accepts
    the URL; the test for a blank URL only selects the message.  The
    request carries the trimmed URL. *)
Theorem download_sent_iff_valid (st : state) (o : fetch_outcome) :
  (validateYouTubeUrl (url st) = true ->
   requests (handleSubmit headers st o).2 = [download_request headers st])
  /\ (validateYouTubeUrl (url st) = false ->
      (handleSubmit headers st o).2 = [PreventDefault]
      /\ error (handleSubmit headers st o).1
         = Some (VStr (if jsstring_eqb (trim (url st)) []
                       then str "Please enter a YouTube URL"
                       else str "Please enter a valid YouTube URL"))
      /\ isDownloading (handleSubmit headers st o).1 = isDownloading st
      /\ success (handleSubmit headers st o).1 = success st)
  /\ req_body (download_request headers st) !! "url" = Some (VStr (trim (url st))).
Proof.
  split; [|split; [|apply download_body_url]].
  - intros H. rewrite youtube_requests, (valid_url_not_blank _ H), H. reflexivity.
  - intros H. unfold handleSubmit. rewrite H.
    destruct (jsstring_eqb (trim (url st)) []); simpl; auto.
Qed.

(** The request carries a title exactly when the title field is not blank,
    and then the trimmed title. *)
Theorem blank_title_is_omitted (st : state) :
  (req_body (download_request headers st) !! "title" = None
   <-> forallb is_whitespace (title st) = true)
  /\ (forall v, req_body (download_request headers st) !! "title" = Some v ->
                v = VStr (trim (title st)) /\ trim (title st) <> []).
Proof.
  unfold download_request, JSON_stringify. cbn [req_body].
  rewrite <- trim_nil. split.
  - rewrite map_lookup_filter_None, lookup_insert_eq. unfold or_else.
    cbn [truthy]. split.
    + intros [H|H]; [discriminate|].
      destruct (jsstring_eqb (trim (title st)) []) eqn:E.
      * apply jsstring_eqb_nil, E.
      * exfalso. apply (H _ eq_refl). simpl. discriminate.
    + intros E. right. intros v [= <-]. rewrite E. simpl. auto.
  - intros v Hv. apply map_lookup_filter_Some in Hv. destruct Hv as [Hv Hne].
    rewrite lookup_insert_eq in Hv. injection Hv as <-. simpl in Hne.
    unfold or_else in *. cbn [truthy] in *.
    destruct (jsstring_eqb (trim (title st)) []) eqn:E; simpl in *.
    + contradiction.
    + split; [reflexivity|]. intros E'. apply jsstring_eqb_nil in E'. congruence.
Qed.
End DownloadFacts.

Lemma trimmed_url_still_valid_witness :
  YouTube.validateYouTubeUrl (trim (str "  https://youtu.be/dQw4w9WgXcQ ")) = true.
Proof.
  apply (proj1 (proj2 (trimmed_url_still_valid bearer
           (YouTube.setUrl (str "  https://youtu.be/dQw4w9WgXcQ ") YouTube.initial)
           eq_refl))).
Defined.

Lemma download_sent_iff_valid_witness :
  requests (YouTube.handleSubmit bearer
              (YouTube.setUrl watch_link YouTube.initial) Rejected).2
  = [YouTube.download_request bearer (YouTube.setUrl watch_link YouTube.initial)]
  /\ (YouTube.handleSubmit bearer YouTube.initial Rejected).2 = [PreventDefault].
Proof.
  split.
  - apply (proj1 (download_sent_iff_valid bearer
                    (YouTube.setUrl watch_link YouTube.initial) Rejected)).
    vm_compute. reflexivity.
  - apply (proj1 (proj2 (download_sent_iff_valid bearer YouTube.initial Rejected))).
    reflexivity.
Defined.

Section DownloadOutcomeFacts.
Import YouTube.
Variable headers : gmap string jsstring.

Lemma truthy_or_else_default (v : value) (m : jsstring) :
  m <> [] -> truthy (or_else v (VStr m)) = true.
Proof.
  intros Hm. unfold or_else. destruct (truthy v) eqn:E; [exact E|].
  simpl. destruct (jsstring_eqb m []) eqn:E'; [|reflexivity].
  apply jsstring_eqb_nil in E'. contradiction.
Qed.

(** Once the URL is accepted, every outcome leaves the dialog idle with
    the URL and title as typed.  A response in the range 200 to 299 marks
    success, clears the error and schedules the closing after 2000 ms,
    whatever its body; any other outcome leaves the success flag alone and
    shows a message that is never empty. *)
Theorem download_outcome (st : state) (o : fetch_outcome) :
  validateYouTubeUrl (url st) = true ->
  isDownloading (handleSubmit headers st o).1 = false
  /\ url (handleSubmit headers st o).1 = url st
  /\ title (handleSubmit headers st o).1 = title st
  /\ (forall status json, o = Responded status json -> ok status = true ->
      success (handleSubmit headers st o).1 = true
      /\ error (handleSubmit headers st o).1 = None
      /\ (handleSubmit headers st o).2
         = [PreventDefault; Fetch (download_request headers st); SetTimeout 2000])
  /\ ((forall status json, o = Responded status json -> ok status = false) ->
      success (handleSubmit headers st o).1 = success st
      /\ (exists v, error (handleSubmit headers st o).1 = Some v /\ truthy v = true)
      /\ (handleSubmit headers st o).2
         = [PreventDefault; Fetch (download_request headers st)]).
Proof.
  intros Hv. unfold handleSubmit. rewrite (valid_url_not_blank _ Hv), Hv.
  cbn [negb]. destruct o as [|status json]; cbn [on_outcome].
  - do 3 (split; [reflexivity|]). split.
    + intros status json [=].
    + intros _. split; [reflexivity|]. split; [|reflexivity].
      eexists. split; reflexivity.
  - destruct (ok status) eqn:Hok.
    + do 3 (split; [reflexivity|]). split.
      * intros status' json' [= <- <-] _. repeat split.
      * intros H. specialize (H status json eq_refl). congruence.
    + assert (Hno : forall status' json',
                 Responded status json = Responded status' json' ->
                 ok status' = true -> False).
      { intros status' json' [= <- <-] H. congruence. }
      destruct json as [errorData|]; do 3 (split; [reflexivity|]); split;
        try (intros status' json' E H; destruct (Hno _ _ E H));
        intros _; (split; [reflexivity|]); (split; [|reflexivity]);
        eexists; (split; [reflexivity|]).
      * apply truthy_or_else_default. discriminate.
      * reflexivity.
Qed.

End DownloadOutcomeFacts.

Lemma download_outcome_witness :
  YouTube.success
    (YouTube.handleSubmit bearer (YouTube.setUrl watch_link YouTube.initial)
                          (Responded 200 None)).1 = true
  /\ YouTube.success
       (YouTube.handleSubmit bearer (YouTube.setUrl watch_link YouTube.initial)
                             (Responded 500 None)).1 = false.
Proof.
  split.
  - destruct (download_outcome bearer (YouTube.setUrl watch_link YouTube.initial)
                               (Responded 200 None))
      as (_ & _ & _ & H & _); [vm_compute; reflexivity|].
    destruct (H 200 None eq_refl eq_refl) as (Hs & _). exact Hs.
  - destruct (download_outcome bearer (YouTube.setUrl watch_link YouTube.initial)
                               (Responded 500 None))
      as (_ & _ & _ & _ & H); [vm_compute; reflexivity|].
    destruct H as (Hs & _); [|exact Hs].
    intros status json [= <- <-]. reflexivity.
Defined.

(** ** Login: what a submission does *)

Section LoginOutcomeFacts.
Import Login.

Lemma login_body (st : state) :
  req_body (login_request st) !! "username" = Some (VStr (username st))
  /\ req_body (login_request st) !! "password" = Some (VStr (password st)).
Proof.
  unfold login_request, JSON_stringify. cbn [req_body]. split;
    apply map_lookup_filter_Some; (split; [|simpl; discriminate]).
  - rewrite lookup_insert_ne by discriminate. apply lookup_singleton_eq.
  - apply lookup_insert_eq.
Qed.

(** The handler has no guard of its own: every submission, even of empty
    fields, sends exactly one request with the username and password as
    typed (not trimmed), keeps both fields and ends with [loading] false. *)
Theorem login_always_sends_once (st : state) (o : fetch_outcome) :
  requests (handleSubmit st o).2 = [login_request st]
  /\ req_url (login_request st) = "/api/v1/auth/login"
  /\ req_body (login_request st) !! "username" = Some (VStr (username st))
  /\ req_body (login_request st) !! "password" = Some (VStr (password st))
  /\ username (handleSubmit st o).1 = username st
  /\ password (handleSubmit st o).1 = password st
  /\ loading (handleSubmit st o).1 = false.
Proof.
  destruct (login_body st) as [Hu Hp].
  split; [|split; [reflexivity|split; [exact Hu|split; [exact Hp|]]]];
    unfold handleSubmit; destruct o as [|status [data|]]; cbn [on_outcome];
    try destruct (ok status); repeat split.
Qed.

(** The token is handed over exactly when the response is in the range 200
    to 299 and its body could be read, and it is the [token] field of that
    body, present or not.  In every other case a message is shown, whatever
    message was shown before. *)
Theorem login_token_iff_ok (st : state) (o : fetch_outcome) :
  (forall t, OnLogin t ∈ (handleSubmit st o).2
             <-> exists status data,
                   o = Responded status (Some data) /\ ok status = true
                   /\ t = get data "token")
  /\ (truthy (error (handleSubmit st o).1) = false
      <-> exists status data, o = Responded status (Some data) /\ ok status = true)
  /\ (forall v, handleSubmit (setError v st) o = handleSubmit st o).
Proof.
  split; [|split].
  - intros t. unfold handleSubmit.
    destruct o as [|status [data|]]; cbn [on_outcome];
      try destruct (ok status) eqn:Hok; cbn [snd];
      rewrite ?elem_of_cons, elem_of_nil; split;
      try (intros (s & d & [=] & _); fail);
      try (intros H; decompose [or] H; try discriminate; try contradiction; fail).
    + intros [[=]|[[=]|[[= ->]|[]]]]. eauto.
    + intros (s & d & [= <- <-] & _ & ->). auto.
    + intros (s & d & [= <- <-] & H & _). congruence.
  - unfold handleSubmit. destruct o as [|status [data|]]; cbn [on_outcome].
    + split; [discriminate | intros (s & d & [=] & _)].
    + destruct (ok status) eqn:Hok; cbn [fst setLoading setError error]; split.
      * eauto.
      * reflexivity.
      * intros H. rewrite truthy_or_else_default in H; discriminate.
      * intros (s & d & [= <- <-] & H). congruence.
    + split; [discriminate | intros (s & d & [=] & _)].
  - intros v. reflexivity.
Qed.
End LoginOutcomeFacts.

(** ** Registration: what a submission does *)

Section RegisterOutcomeFacts.
Import Register.

Lemma register_body (st : state) :
  req_body (register_request st) !! "password" = Some (VStr (password st))
  /\ req_body (register_request st) !! "confirmPassword"
     = Some (VStr (confirmPassword st)).
Proof.
  unfold register_request, JSON_stringify. cbn [req_body]. split;
    apply map_lookup_filter_Some; (split; [|simpl; discriminate]).
  - rewrite lookup_insert_ne by discriminate. apply lookup_insert_eq.
  - apply lookup_insert_eq.
Qed.

(** The confirmation matches exactly when it is not empty and equal to the
    password, code unit by code unit; two empty fields do not match. *)
Theorem passwordsMatch_spec (st : state) (p c : jsstring) :
  (passwordsMatch (setConfirmPassword c (setPassword p st)) = true
   <-> c <> [] /\ c = p)
  /\ passwordsMatch (setConfirmPassword [] (setPassword [] st)) = false.
Proof.
  split; [|reflexivity]. rewrite passwordsMatch_iff. reflexivity.
Qed.

(** Any request the registration form sends carries a password that meets
    the whole policy, and a confirmation equal to it. *)
Theorem register_sends_only_checked_passwords
        (st : state) (o : fetch_outcome) (r : request) :
  r ∈ requests (handleSubmit st o).2 ->
  r = register_request st
  /\ isPasswordValid st = true
  /\ (8 <= List.length (password st))%nat
  /\ req_body r !! "password" = Some (VStr (password st))
  /\ req_body r !! "confirmPassword" = Some (VStr (password st)).
Proof.
  rewrite handleSubmit_requests.
  destruct (isPasswordValid st) eqn:Hv; cbn [andb];
    [|intros H; apply elem_of_nil in H; contradiction].
  destruct (passwordsMatch st) eqn:Hm;
    [|intros H; apply elem_of_nil in H; contradiction].
  intros H. apply list_elem_of_singleton in H. subst r.
  apply passwordsMatch_iff in Hm. destruct Hm as [_ Hc].
  destruct (register_body st) as [Hp Hcp]. rewrite Hc in Hcp.
  split; [reflexivity|]. split; [reflexivity|]. split; [|auto].
  unfold isPasswordValid, passwordStrength, every_Boolean, Object_values in Hv.
  cbn [forallb checkPasswordStrength hasMinLength] in Hv.
  apply andb_true_iff in Hv. destruct Hv as [Hl _]. unfold id in Hl.
  apply N.leb_le in Hl. lia.
Qed.

Lemma register_sends_only_checked_passwords_witness :
  isPasswordValid short_username_form = true.
Proof.
  destruct (register_sends_only_checked_passwords short_username_form Rejected
              (register_request short_username_form)) as (_ & H & _).
  - rewrite handleSubmit_requests. apply list_elem_of_singleton. reflexivity.
  - exact H.
Defined.

(** The token is handed over exactly when the form passed both local
    checks, the response is in the range 200 to 299 and its body could be
    read.  After every other submission a message is shown, and the typed
    fields are never changed. *)
Theorem registration_token_iff_ok (st : state) (o : fetch_outcome) :
  (forall t, OnRegister t ∈ (handleSubmit st o).2
             <-> isPasswordValid st = true /\ passwordsMatch st = true
                 /\ exists status data,
                      o = Responded status (Some data) /\ ok status = true
                      /\ t = get data "token")
  /\ (truthy (error (handleSubmit st o).1) = false
      <-> isPasswordValid st = true /\ passwordsMatch st = true
          /\ exists status data, o = Responded status (Some data) /\ ok status = true)
  /\ username (handleSubmit st o).1 = username st
  /\ password (handleSubmit st o).1 = password st
  /\ confirmPassword (handleSubmit st o).1 = confirmPassword st.
Proof.
  unfold handleSubmit.
  destruct (isPasswordValid st); cbn [negb].
  2:{ split; [|split; [|auto]].
      - intros t. cbn [snd]. rewrite elem_of_cons, elem_of_nil. split.
        + intros [[=]|[]].
        + intros ([=] & _).
      - cbn [fst setError error]. split; [discriminate | intros ([=] & _)]. }
  destruct (passwordsMatch st); cbn [negb].
  2:{ split; [|split; [|auto]].
      - intros t. cbn [snd]. rewrite elem_of_cons, elem_of_nil. split.
        + intros [[=]|[]].
        + intros (_ & [=] & _).
      - cbn [fst setError error]. split; [discriminate | intros (_ & [=] & _)]. }
  destruct o as [|status [data|]]; cbn [on_outcome];
    try destruct (ok status) eqn:Hok; cbn [fst snd];
    (split; [|split; [|auto]]);
    try (intros t; rewrite ?elem_of_cons, elem_of_nil); split;
    try (intros (_ & _ & s & d & [=] & _); fail);
    try (intros H; decompose [or] H; try discriminate; try contradiction; fail);
    try discriminate.
  - intros [[=]|[[=]|[[= ->]|[]]]]. eauto 8.
  - intros (_ & _ & s & d & [= <- <-] & _ & ->). auto.
  - eauto 8.
  - reflexivity.
  - intros (_ & _ & s & d & [= <- <-] & H & _). congruence.
  - cbn [setLoading setError error]. intros H.
    rewrite truthy_or_else_default in H; discriminate.
  - intros (_ & _ & s & d & [= <- <-] & H). congruence.
Qed.
End RegisterOutcomeFacts.

Section RegisterLoginFacts.

(** Once the form passed its local checks, registration treats the outcome
    of its request the way login does: the same token is handed over in
    the same cases, and the same message is shown, except that the default
    for a rejection without message is Registration failed instead of Login
    failed. *)
Theorem registration_mirrors_login
        (sr : Register.state) (sl : Login.state) (o : fetch_outcome) :
  Register.isPasswordValid sr = true -> Register.passwordsMatch sr = true ->
  (forall t, OnRegister t ∈ (Register.handleSubmit sr o).2
             <-> OnLogin t ∈ (Login.handleSubmit sl o).2)
  /\ (Register.error (Register.handleSubmit sr o).1
      = Login.error (Login.handleSubmit sl o).1
      \/ (Login.error (Login.handleSubmit sl o).1 = VStr (str "Login failed")
          /\ Register.error (Register.handleSubmit sr o).1
             = VStr (str "Registration failed")
          /\ exists status data,
               o = Responded status (Some data) /\ ok status = false
               /\ truthy (get data "error") = false)).
Proof.
  intros Hv Hm. unfold Register.handleSubmit, Login.handleSubmit.
  rewrite Hv, Hm. cbn [negb].
  destruct o as [|status [data|]]; cbn [Register.on_outcome Login.on_outcome];
    [|destruct (ok status) eqn:Hok|]; cbn [fst snd].
  - split; [|left; reflexivity].
    intros t. rewrite !elem_of_cons, !elem_of_nil.
    split; intros H; decompose [or] H; try discriminate; contradiction.
  - split; [|left; reflexivity].
    intros t. rewrite !elem_of_cons, !elem_of_nil. split.
    + intros [[=]|[[=]|[[= ->]|[]]]]. auto.
    + intros [[=]|[[=]|[[= ->]|[]]]]. auto.
  - split.
    + intros t. rewrite !elem_of_cons, !elem_of_nil.
      split; intros H; decompose [or] H; try discriminate; contradiction.
    + cbn [Register.setLoading Register.setError Register.error
           Login.setLoading Login.setError Login.error].
      unfold or_else. destruct (truthy (get data "error")) eqn:E.
      * left. reflexivity.
      * right. eauto 8.
  - split; [|left; reflexivity].
    intros t. rewrite !elem_of_cons, !elem_of_nil.
    split; intros H; decompose [or] H; try discriminate; contradiction.
Qed.

Lemma registration_mirrors_login_witness :
  Register.error (Register.handleSubmit short_username_form Rejected).1
  = Login.error (Login.handleSubmit Login.initial Rejected).1.
Proof.
  destruct (registration_mirrors_login short_username_form Login.initial Rejected)
    as (_ & [H | (_ & _ & s & d & [=] & _)]);
    [reflexivity | reflexivity | exact H].
Defined.

Import Register.

(** When the submit button is enabled, the handler's own checks pass and
    the request is sent; the button also asks for a username that is not
    blank and for no request being under way. *)
Theorem enabled_button_submits (st : state) (o : fetch_outcome) :
  submit_disabled st = false ->
  requests (handleSubmit st o).2 = [register_request st]
  /\ loading st = false
  /\ trim (username st) <> [].
Proof.
  unfold submit_disabled. rewrite !orb_false_iff, !negb_false_iff.
  intros [[[Hl Hu] Hv] Hm]. rewrite handleSubmit_requests, Hv, Hm.
  split; [reflexivity|]. split; [exact Hl|].
  intros E. apply jsstring_eqb_nil in E. congruence.
Qed.

Lemma enabled_button_submits_witness :
  requests (handleSubmit short_username_form Rejected).2
  = [register_request short_username_form].
Proof.
  destruct (enabled_button_submits short_username_form Rejected) as (H & _);
    [reflexivity | exact H].
Defined.

Lemma class_test_app (items : list class_item) (p q : jsstring) :
  test (Atom (Class false items)) (p ++ q)
  = test (Atom (Class false items)) p || test (Atom (Class false items)) q.
Proof. rewrite !test_class. apply existsb_app. Qed.

Lemma class_test_grows (items : list class_item) (before p after : jsstring) :
  test (Atom (Class false items)) p = true ->
  test (Atom (Class false items)) (before ++ p ++ after) = true.
Proof.
  intros H. rewrite !class_test_app, H. rewrite orb_true_r. reflexivity.
Qed.

(** A password that meets the policy keeps meeting it when characters are
    added before or after it: no rule forbids anything. *)
Theorem valid_password_stays_valid (st : state) (before after : jsstring) :
  isPasswordValid st = true ->
  isPasswordValid (setPassword (before ++ password st ++ after) st) = true.
Proof.
  unfold isPasswordValid, passwordStrength, every_Boolean, Object_values.
  cbn [setPassword password forallb checkPasswordStrength hasMinLength
       hasUppercase hasLowercase hasNumber hasSpecialChar]. unfold id.
  rewrite !andb_true_iff. intros (Hl & Hu & Hw & Hn & Hs & _).
  repeat split; try (apply class_test_grows; assumption).
  apply N.leb_le in Hl. apply N.leb_le. rewrite !length_app. lia.
Qed.

Lemma valid_password_stays_valid_witness :
  isPasswordValid
    (setPassword (str "xx" ++ str "Abcdef1!" ++ str "yy") short_username_form)
  = true.
Proof.
  apply (valid_password_stays_valid short_username_form (str "xx") (str "yy")).
  reflexivity.
Defined.
End RegisterLoginFacts.

(** ** LLM settings: loading, saving and switching the provider *)

Section LLMLoadFacts.
Import LLMSettings LLMLoad.
Variable headers : gmap string jsstring.

(** [fetchConfig] is defined for every outcome whose [base_url], if any, is
    a string or falsy. *)
Lemma fetchConfig_defined (st : state) (o : fetch_outcome) :
  (forall status data, o = Responded status (Some data) ->
     get data "base_url" = VUndefined \/ exists u, get data "base_url" = VStr u) ->
  exists r, fetchConfig headers st o = Some r.
Proof.
  intros H. unfold fetchConfig. destruct o as [|status [data|]]; eauto.
  - destruct (ok status); [|destruct (negb (status =? 404)); eauto].
    unfold loaded_base_url, or_else.
    destruct (H status data eq_refl) as [-> | [u ->]]; cbn [truthy]; eauto.
    destruct (negb (jsstring_eqb u [])); eauto.
  - destruct (ok status); [|destruct (negb (status =? 404))]; eauto.
Qed.

(** Loading sends one GET and always ends with [loading] false, never
    touches the key field, and changes the configuration and the base URL
    field only on a readable answer in the range 200 to 299.  A 404 is
    silent; every other failure is logged. *)
Theorem fetchConfig_outcome (st st' : state) (o : fetch_outcome) (es : list effect) :
  fetchConfig headers st o = Some (st', es) ->
  requests es = [config_request headers]
  /\ loading st' = false
  /\ apiKey st' = apiKey st
  /\ (forall status data, o = Responded status (Some data) -> ok status = true ->
      config st' = data
      /\ VStr (baseUrl st') = or_else (get data "base_url") (VStr [])
      /\ es = [Fetch (config_request headers)])
  /\ ((forall status data, o = Responded status (Some data) -> ok status = false) ->
      config st' = config st /\ baseUrl st' = baseUrl st)
  /\ (forall json, o = Responded 404 json -> es = [Fetch (config_request headers)])
  /\ ((forall status json, o = Responded status json ->
         ok status = false /\ status <> 404) ->
      exists label, es = [Fetch (config_request headers); ConsoleError label]).
Proof.
  unfold fetchConfig. destruct o as [|status json].
  - intros [= <- <-]. do 3 (split; [reflexivity|]).
    split; [intros ? ? [=]|]. split; [auto|]. split; [intros ? [=]|]. eauto.
  - destruct (ok status) eqn:Hok.
    + destruct json as [data|].
      * destruct (loaded_base_url data) as [u|] eqn:Hu; [|discriminate].
        intros [= <- <-]. do 3 (split; [reflexivity|]). split.
        { intros s d [= <- <-] _. split; [reflexivity|]. split; [|reflexivity].
          cbn [setLoading setBaseUrl baseUrl]. unfold loaded_base_url in Hu.
          destruct (or_else (get data "base_url") (VStr [])); congruence. }
        split; [intros H; specialize (H _ _ eq_refl); congruence|].
        split; [intros ? [= -> _]; discriminate|].
        intros H. destruct (H _ _ eq_refl). congruence.
      * intros [= <- <-]. do 3 (split; [reflexivity|]).
        split; [intros ? ? [=]|]. split; [auto|].
        split; [intros ? [= -> _]; discriminate|]. eauto.
    + destruct (status =? 404) eqn:E404; cbn [negb]; intros [= <- <-];
        do 3 (split; [reflexivity|]);
        (split; [intros s d [= <- _] H; congruence|]);
        (split; [auto|]); split; eauto.
      * intros H. destruct (H _ _ eq_refl) as [_ Hne].
        apply N.eqb_eq in E404. contradiction.
      * intros json' [= -> _]. discriminate.
Qed.

End LLMLoadFacts.

Lemma fetchConfig_outcome_witness :
  let st' := LLMLoad.setLoading false
               (LLMSettings.setBaseUrl (str "http://localhost:11434")
                  (LLMSettings.setConfig ollama_answer LLMSettings.initial)) in
  LLMSettings.loading st' = false
  /\ LLMSettings.apiKey st' = LLMSettings.apiKey LLMSettings.initial.
Proof.
  intros st'.
  destruct (fetchConfig_outcome bearer LLMSettings.initial st'
              (Responded 200 (Some ollama_answer))
              [Fetch (LLMLoad.config_request bearer)]) as (_ & Hl & Hk & _).
  - vm_compute. reflexivity.
  - split; [exact Hl | exact Hk].
Defined.

Section LLMSaveFacts.
Import LLMSettings LLMLoad.
Variable headers : gmap string jsstring.

(** A save that the server accepts replaces the configuration by the
    answer and empties the key field exactly when openai was selected; any
    other outcome keeps configuration, base URL and key as they were and
    shows an error text that is never empty.  Saving always ends with
    [saving] false.  (A body that cannot be read is one for which
    [response.json()] rejects.) *)
Theorem handleSave_outcome (st : state) (o : fetch_outcome) :
  saving (handleSave headers st o).1 = false
  /\ baseUrl (handleSave headers st o).1 = baseUrl st
  /\ (forall status data, o = Responded status (Some data) -> ok status = true ->
      config (handleSave headers st o).1 = data
      /\ apiKey (handleSave headers st o).1
         = (if is_openai st then [] else apiKey st)
      /\ message (handleSave headers st o).1
         = Some (Success, VStr (str "LLM configuration saved successfully!")))
  /\ ((forall status data, o = Responded status (Some data) -> ok status = false) ->
      config (handleSave headers st o).1 = config st
      /\ apiKey (handleSave headers st o).1 = apiKey st
      /\ exists v, message (handleSave headers st o).1 = Some (Error, v)
                   /\ truthy v = true).
Proof.
  unfold handleSave.
  destruct o as [|status [data|]]; cbn [on_outcome];
    [|destruct (ok status) eqn:Hok|].
  - do 2 (split; [reflexivity|]). split; [intros ? ? [=]|].
    intros _. do 2 (split; [reflexivity|]). eauto.
  - split; [destruct (is_openai st); reflexivity|].
    split; [destruct (is_openai st); reflexivity|]. split.
    + intros s d [= <- <-] _. destruct (is_openai st); repeat split.
    + intros H. specialize (H _ _ eq_refl). congruence.
  - do 2 (split; [reflexivity|]). split.
    + intros s d [= <- <-] H. congruence.
    + intros _. do 2 (split; [reflexivity|]). eexists. split; [reflexivity|].
      apply truthy_or_else_default. discriminate.
  - do 2 (split; [reflexivity|]). split; [intros ? ? [=]|].
    intros _. do 2 (split; [reflexivity|]). eauto.
Qed.

(** No request of a save carries both a base URL and an API key. *)
Theorem payload_never_has_both_fields (st : state) :
  ~ (is_Some (req_body (save_request headers st) !! "base_url")
     /\ is_Some (req_body (save_request headers st) !! "api_key")).
Proof.
  cbn [save_request req_body]. intros [Hb Hk].
  apply stringify_dom in Hb, Hk.
  rewrite payload_base_url in Hb. rewrite payload_api_key in Hk.
  destruct (is_ollama st) eqn:Eo; [|destruct Hb; discriminate].
  destruct (is_openai st) eqn:Ea; [|destruct Hk; discriminate].
  apply is_ollama_iff in Eo. apply is_openai_iff in Ea.
  rewrite Eo in Ea. discriminate.
Qed.

(** Choosing a provider changes nothing but the [provider] field: the base
    URL and key typed so far survive, and choosing the former provider
    again restores the state. *)
Theorem select_provider_round_trip (st : state) (p q : jsstring) :
  config st !! "provider" = Some (VStr p) ->
  select_provider p (select_provider q st) = st
  /\ provider (select_provider q st) = VStr q
  /\ baseUrl (select_provider q st) = baseUrl st
  /\ apiKey (select_provider q st) = apiKey st
  /\ (forall k, k <> "provider" ->
                config (select_provider q st) !! k = config st !! k).
Proof.
  intros H. unfold select_provider, setConfig, provider, get. cbn.
  split; [|split; [|split; [reflexivity|split; [reflexivity|]]]].
  - rewrite insert_insert_eq, (insert_id _ _ _ H). destruct st; reflexivity.
  - rewrite lookup_insert_eq. reflexivity.
  - intros k Hk. apply lookup_insert_ne. congruence.
Qed.

(** After a readable answer in the range 200 to 299, the save control
    follows the answer: for ollama it is enabled exactly when the stored
    base URL is not blank, for openai with an untouched key field exactly
    when the answer reports a stored key. *)
Theorem loaded_form_validity (st st' : state) (status : N)
        (data : gmap string value) (es : list effect) :
  fetchConfig headers st (Responded status (Some data)) = Some (st', es) ->
  ok status = true ->
  (get data "provider" = VStr (str "ollama") ->
   forall u, get data "base_url" = VStr u ->
   truthy (isFormValid st') = negb (jsstring_eqb (trim u) []))
  /\ (get data "provider" = VStr (str "openai") ->
      trim (apiKey st) = [] ->
      truthy (isFormValid st') = truthy (get data "has_api_key")).
Proof.
  unfold fetchConfig. intros H Hok. rewrite Hok in H.
  destruct (loaded_base_url data) as [b|] eqn:Hb; [|discriminate].
  injection H as <- <-. split.
  - intros Hp u Hu. unfold isFormValid, is_ollama, provider.
    cbn [setLoading setBaseUrl setConfig config baseUrl].
    rewrite Hp. unfold strict_eq. rewrite bool_decide_eq_true_2 by reflexivity.
    cbn [truthy]. unfold loaded_base_url, or_else in Hb. rewrite Hu in Hb.
    cbn [truthy] in Hb. destruct (jsstring_eqb u []) eqn:Eu; cbn [negb] in Hb.
    + apply jsstring_eqb_nil in Eu. subst u. injection Hb as <-. reflexivity.
    + injection Hb as <-. reflexivity.
  - intros Hp Hk. unfold isFormValid, is_ollama, is_openai, provider.
    cbn [setLoading setBaseUrl setConfig config baseUrl apiKey].
    rewrite Hp. unfold strict_eq.
    rewrite bool_decide_eq_false_2 by discriminate.
    rewrite bool_decide_eq_true_2 by reflexivity.
    rewrite truthy_or_else, Hk. reflexivity.
Qed.
End LLMSaveFacts.

Lemma handleSave_outcome_witness :
  LLMSettings.config
    (LLMSettings.handleSave bearer stored_key_form
       (Responded 200 (Some openai_answer))).1 = openai_answer
  /\ LLMSettings.config
       (LLMSettings.handleSave bearer stored_key_form Rejected).1
     = LLMSettings.config stored_key_form.
Proof.
  destruct (handleSave_outcome bearer stored_key_form
              (Responded 200 (Some openai_answer))) as (_ & _ & H & _).
  destruct (handleSave_outcome bearer stored_key_form Rejected) as (_ & _ & _ & H').
  split.
  - exact (proj1 (H 200 openai_answer eq_refl eq_refl)).
  - apply H'. intros status data [=].
Defined.

Lemma select_provider_round_trip_witness :
  LLMSettings.select_provider (str "ollama")
    (LLMSettings.select_provider (str "openai") LLMSettings.initial)
  = LLMSettings.initial.
Proof.
  apply (select_provider_round_trip LLMSettings.initial (str "ollama") (str "openai")).
  vm_compute. reflexivity.
Defined.

Lemma loaded_form_validity_witness :
  truthy (LLMSettings.isFormValid
            (LLMLoad.setLoading false
               (LLMSettings.setBaseUrl []
                  (LLMSettings.setConfig openai_answer LLMSettings.initial))))
  = true.
Proof.
  destruct (loaded_form_validity bearer LLMSettings.initial _ 200 openai_answer
              [Fetch (LLMLoad.config_request bearer)] eq_refl eq_refl) as [_ H].
  rewrite H; reflexivity.
Defined.

(** ** Media import: short links always yield their identifier *)

Section ShortLinkFacts.
Import YouTube.

Lemma id_char_matches (c : N) :
  id_char c ->
  atom_matches (Class true [Chr dquote; Chr 38; Chr 63; Chr 47; Space]) c = true.
Proof.
  unfold id_char, dquote. intros (H1 & H2 & H3 & H4 & H5).
  cbn [atom_matches existsb item_matches].
  apply N.eqb_neq in H1, H2, H3, H4. rewrite H1, H2, H3, H4, H5. reflexivity.
Qed.

(** A repetition with equal bounds over a run of exactly that many matching
    characters reads the run and nothing else. *)
Lemma rep_exact {R : Type} (a : atom) (id : jsstring) :
  Forall (fun c => atom_matches a c = true) id ->
  forall (post : jsstring) (k : jsstring -> option R),
    rep a (List.length id) (Some (List.length id)) (id ++ post) k = k post.
Proof.
  induction 1 as [|c id Hc Hall IH]; intros post k.
  - destruct post as [|d post]; cbn [rep app List.length]; [reflexivity|].
    rewrite andb_false_r. reflexivity.
  - cbn [rep app List.length Nat.pred dec_max may_take Nat.eqb].
    rewrite Hc. cbn [andb]. rewrite IH. destruct (k post); reflexivity.
Qed.

Lemma exec_skip (r : regex) (c : N) (s : jsstring) :
  match_here r (c :: s) = None -> exec r (c :: s) = exec r s.
Proof. intros H. cbn [exec]. rewrite H. reflexivity. Qed.

(** The pattern can only match where the text starts with the letter y. *)
Lemma video_id_needs_y (c : N) (s : jsstring) :
  c <> 121 -> match_here video_id_regex (c :: s) = None.
Proof.
  intros H. apply N.eqb_neq in H. unfold match_here, video_id_regex.
  change (str "youtube.com/") with (121 :: str "outube.com/").
  change (str "youtu.be/") with (121 :: str "outu.be/").
  cbn [run lit atom_matches]. rewrite H. reflexivity.
Qed.

Lemma lit_match {R : Type} (p : jsstring) : forall (s : jsstring)
    (cap : option jsstring) (k : jsstring -> option jsstring -> option R),
  run (lit p) (p ++ s) cap k = k s cap.
Proof.
  induction p as [|c p IH]; intros s cap k; cbn [lit run app atom_matches];
    [reflexivity|].
  rewrite N.eqb_refl. apply IH.
Qed.

Lemma short_link_match_here (id post : jsstring) :
  List.length id = 11%nat -> Forall id_char id ->
  exists w, match_here video_id_regex (str "youtu.be/" ++ id ++ post)
            = Some {| whole := w; group1 := Some id |}.
Proof.
  intros Hlen Hall. unfold match_here, video_id_regex. cbn [run].
  assert (E : forall (tail : jsstring) k,
             run (R := match_result) (lit (str "youtube.com/"))
                 (str "youtu.be/" ++ tail) None k = None)
    by (intros; reflexivity).
  rewrite E, lit_match. unfold re_id. cbn [run].
  assert (Hm : Forall (fun c => atom_matches
                        (Class true [Chr dquote; Chr 38; Chr 63; Chr 47; Space]) c
                      = true) id).
  { eapply Forall_impl; [exact Hall|]. intros c Hc. apply id_char_matches, Hc. }
  pose proof (rep_exact (R := match_result) _ id Hm) as Hrep.
  rewrite Hlen in Hrep. rewrite Hrep, consumed_app. eauto.
Qed.

(** A link that reaches the short host name without any letter y before
    it, followed by eleven identifier characters, yields exactly those
    eleven characters, whatever comes after them. *)
Theorem short_link_yields_its_id (pre id post : jsstring) :
  Forall (fun c => c <> 121) pre ->
  List.length id = 11%nat -> Forall id_char id ->
  getYouTubeVideoId (pre ++ str "youtu.be/" ++ id ++ post) = Some id.
Proof.
  intros Hpre Hlen Hall. unfold getYouTubeVideoId, string_match.
  destruct (short_link_match_here id post Hlen Hall) as (w & Hm).
  assert (E : exec video_id_regex (pre ++ str "youtu.be/" ++ id ++ post)
              = Some {| whole := w; group1 := Some id |}).
  { induction Hpre as [|c pre Hc _ IH]; cbn [app].
    - change (str "youtu.be/" ++ id ++ post)
        with (121 :: str "outu.be/" ++ id ++ post) in *.
      cbn [exec]. rewrite Hm. reflexivity.
    - rewrite exec_skip; [exact IH|]. apply video_id_needs_y, Hc. }
  rewrite E. reflexivity.
Qed.

Lemma short_link_yields_its_id_witness :
  getYouTubeVideoId (str "https://" ++ str "youtu.be/" ++ str "dQw4w9WgXcQ"
                     ++ str "?t=42")
  = Some (str "dQw4w9WgXcQ").
Proof.
  apply short_link_yields_its_id.
  - repeat constructor; discriminate.
  - reflexivity.
  - repeat constructor; vm_compute; try discriminate; reflexivity.
Defined.
End ShortLinkFacts.
